(** * MedicalVoiceAI front end: store, LiveKit bridge, API client, connect flow

    A shallow embedding of the TypeScript sources of the operator dashboard:

    - [lib/store.ts]            the zustand store ([useAppStore]);
    - [hooks/LivekitBridge.tsx] the two room-event handlers;
    - [lib/api.ts]              [apiFetch] and the three request wrappers;
    - [App.tsx]                 [loadLatestSummary], [handleConnect],
                                [handleDisconnect] and [connected].

    JavaScript strings are modelled as [string] (the UTF-8 bytes of the
    text), JavaScript numbers as exact rationals [Q] (no arithmetic other
    than [Date.now() / 1000] is performed on them by the code below), and
    values of static type [any] as a datatype of run-time values. *)

From Stdlib Require Import List String Ascii Bool ZArith NArith QArith Lia.
From Stdlib.Strings Require Import Byte.
From Stdlib Require Import DecimalString DecimalN.
Import ListNotations.

Set Implicit Arguments.
Local Close Scope Q_scope.
Local Open Scope string_scope.
Local Open Scope list_scope.

(* ================================================================== *)
(** ** Run-time values *)

(** What [JSON.parse] can return, plus [undefined], which is what reading
    a missing property gives.  An object keeps its members in source
    order. *)
#[warnings="-register-all"] Inductive JSValue : Type :=
| JUndefined
| JNull
| JBool (b : bool)
| JNum (q : Q)
| JStr (s : string)
| JArr (items : list JSValue)
| JObj (members : list (string * JSValue)).

(** A thrown value: an [Error] instance (with its [name] and [message]) or
    anything else. *)
Inductive Thrown : Type :=
| ErrorObject (name message : string)
| OtherThrown (v : JSValue).

(** [a ?? b]: [b] exactly when [a] is [null] or [undefined]. *)
Definition nullish (v : JSValue) : bool :=
  match v with
  | JUndefined | JNull => true
  | _ => false
  end.

Definition coalesce (a b : JSValue) : JSValue :=
  if nullish a then b else a.

(** Own-property lookup in an object literal read by [JSON.parse]: a
    repeated key keeps its last value. *)
Definition lookup_member (k : string) (ms : list (string * JSValue)) : JSValue :=
  match find (fun kv => String.eqb k (fst kv)) (rev ms) with
  | Some (_, v) => v
  | None => JUndefined
  end.

(* ================================================================== *)
(** ** types/index.ts *)

Module Types.

(** The bridge fills these records from a value of type [any], so at run
    time every field holds an arbitrary value; the declared TypeScript
    types are the predicates [TranscriptEntry_typed] and [ToolEvent_typed]
    below. *)
Record TranscriptEntry : Type := mkTranscriptEntry {
  speaker : JSValue;
  text : JSValue;
  timestamp : JSValue;
  itemId : JSValue
}.

Record ToolEvent : Type := mkToolEvent {
  name : JSValue;
  arguments : JSValue;
  output : JSValue;
  tool_timestamp : JSValue;
  callId : JSValue
}.

Record SummaryRecord : Type := mkSummaryRecord {
  id : string;
  summary_text : string;
  preferences : option JSValue;
  appointments_in_call : option JSValue;
  cost_breakdown : option JSValue;
  action_items : option (list string);
  timeline : option (list ToolEvent);
  transcript : option (list TranscriptEntry);
  created_at : string
}.

Definition is_speaker (v : JSValue) : bool :=
  match v with
  | JStr s => String.eqb s "user" || String.eqb s "assistant" || String.eqb s "system"
  | _ => false
  end.

Definition is_string (v : JSValue) : bool :=
  match v with JStr _ => true | _ => false end.

Definition is_number (v : JSValue) : bool :=
  match v with JNum _ => true | _ => false end.

(** [speaker: "user" | "assistant" | "system"; text: string;
     timestamp: number; itemId: string]. *)
Definition TranscriptEntry_typed (e : TranscriptEntry) : bool :=
  is_speaker (speaker e) && is_string (text e)
  && is_number (timestamp e) && is_string (itemId e).

Definition is_object (v : JSValue) : bool :=
  match v with JObj _ => true | _ => false end.

(** [name: string; arguments: Record<string, unknown>; output?: unknown;
     timestamp: number; callId?: string | null]. *)
Definition ToolEvent_typed (e : ToolEvent) : bool :=
  is_string (name e) && is_object (arguments e)
  && is_number (tool_timestamp e)
  && (is_string (callId e) || nullish (callId e)).

End Types.
Import Types.

(* ================================================================== *)
(** ** lib/store.ts *)

Module Store.

(** The data fields of [AppState]; [string | null] is [option string]. *)
Record AppState : Type := mkAppState {
  livekitUrl : option string;
  token : option string;
  identity : option string;
  roomName : option string;
  callerPhone : option string;
  connecting : bool;
  transcripts : list TranscriptEntry;
  toolEvents : list ToolEvent;
  summary : option SummaryRecord
}.

(** The argument of zustand's [set]: an object naming the fields to
    overwrite. *)
Record Patch : Type := mkPatch {
  p_livekitUrl : option (option string);
  p_token : option (option string);
  p_identity : option (option string);
  p_roomName : option (option string);
  p_callerPhone : option (option string);
  p_connecting : option bool;
  p_transcripts : option (list TranscriptEntry);
  p_toolEvents : option (list ToolEvent);
  p_summary : option (option SummaryRecord)
}.

Definition pick {A} (new : option A) (old : A) : A :=
  match new with Some v => v | None => old end.

(** [set(partial)]: a shallow merge of [partial] over the state. *)
Definition set (p : Patch) (s : AppState) : AppState :=
  {| livekitUrl := pick (p_livekitUrl p) (livekitUrl s);
     token := pick (p_token p) (token s);
     identity := pick (p_identity p) (identity s);
     roomName := pick (p_roomName p) (roomName s);
     callerPhone := pick (p_callerPhone p) (callerPhone s);
     connecting := pick (p_connecting p) (connecting s);
     transcripts := pick (p_transcripts p) (transcripts s);
     toolEvents := pick (p_toolEvents p) (toolEvents s);
     summary := pick (p_summary p) (summary s) |}.

(** [set(fn)]: [fn] reads the current state and returns the partial. *)
Definition set_fn (f : AppState -> Patch) (s : AppState) : AppState :=
  set (f s) s.

Definition initial : AppState :=
  {| livekitUrl := None; token := None; identity := None; roomName := None;
     callerPhone := None; connecting := false; transcripts := [];
     toolEvents := []; summary := None |}.

(** The parameter object of [setSession]. *)
Record SessionParams : Type := mkSessionParams {
  sp_token : string;
  sp_identity : string;
  sp_roomName : string;
  sp_livekitUrl : string;
  sp_phone : string
}.

Definition setLivekitUrl (url : string) : AppState -> AppState :=
  set {| p_livekitUrl := Some (Some url); p_token := None; p_identity := None;
         p_roomName := None; p_callerPhone := None; p_connecting := None;
         p_transcripts := None; p_toolEvents := None; p_summary := None |}.

Definition beginConnect : AppState -> AppState :=
  set {| p_livekitUrl := None; p_token := None; p_identity := None;
         p_roomName := None; p_callerPhone := None; p_connecting := Some true;
         p_transcripts := None; p_toolEvents := None; p_summary := None |}.

Definition setSession (params : SessionParams) : AppState -> AppState :=
  set {| p_token := Some (Some (sp_token params));
         p_identity := Some (Some (sp_identity params));
         p_roomName := Some (Some (sp_roomName params));
         p_livekitUrl := Some (Some (sp_livekitUrl params));
         p_callerPhone := Some (Some (sp_phone params));
         p_connecting := Some false;
         p_transcripts := Some [];
         p_toolEvents := Some [];
         p_summary := Some None |}.

Definition clearSession : AppState -> AppState :=
  set {| p_livekitUrl := None;
         p_token := Some None;
         p_identity := Some None;
         p_roomName := Some None;
         p_callerPhone := Some None;
         p_transcripts := Some [];
         p_toolEvents := Some [];
         p_summary := Some None;
         p_connecting := Some false |}.

Definition addTranscript (entry : TranscriptEntry) : AppState -> AppState :=
  set_fn (fun state =>
    {| p_livekitUrl := None; p_token := None; p_identity := None;
       p_roomName := None; p_callerPhone := None; p_connecting := None;
       p_transcripts := Some (transcripts state ++ [entry]);
       p_toolEvents := None; p_summary := None |}).

Definition addToolEvent (event : ToolEvent) : AppState -> AppState :=
  set_fn (fun state =>
    {| p_livekitUrl := None; p_token := None; p_identity := None;
       p_roomName := None; p_callerPhone := None; p_connecting := None;
       p_transcripts := None;
       p_toolEvents := Some (toolEvents state ++ [event]);
       p_summary := None |}).

Definition setSummary (record : option SummaryRecord) : AppState -> AppState :=
  set {| p_livekitUrl := None; p_token := None; p_identity := None;
         p_roomName := None; p_callerPhone := None; p_connecting := None;
         p_transcripts := None; p_toolEvents := None;
         p_summary := Some record |}.

(** The store's mutation operations as data, and a run of them from a
    given state. *)
Inductive Action : Type :=
| SetLivekitUrl (url : string)
| BeginConnect
| SetSession (params : SessionParams)
| ClearSession
| AddTranscript (entry : TranscriptEntry)
| AddToolEvent (event : ToolEvent)
| SetSummary (record : option SummaryRecord).

Definition dispatch (a : Action) : AppState -> AppState :=
  match a with
  | SetLivekitUrl url => setLivekitUrl url
  | BeginConnect => beginConnect
  | SetSession params => setSession params
  | ClearSession => clearSession
  | AddTranscript entry => addTranscript entry
  | AddToolEvent event => addToolEvent event
  | SetSummary record => setSummary record
  end.

Definition run (acts : list Action) (s : AppState) : AppState :=
  fold_left (fun st a => dispatch a st) acts s.

Definition present {A} (o : option A) : bool :=
  match o with Some _ => true | None => false end.

End Store.

(* ================================================================== *)
(** ** Effects: the world a handler runs in, exceptions, try/catch *)

Inductive Level : Type := Debug | Info | Warn | Error.

(** One [console.debug/info/warn/error] call, kept by its level and its
    first argument. *)
Record LogLine : Type := mkLogLine {
  level : Level;
  message : string
}.

(** The store, the console, and the [error] and [summaryLoading] state
    cells of the [App] component. *)
Record World : Type := mkWorld {
  store : Store.AppState;
  console : list LogLine;
  error : option string;
  summaryLoading : bool
}.

Inductive Outcome (A : Type) : Type :=
| Returned (a : A)
| Threw (e : Thrown).

Arguments Returned {A} a.
Arguments Threw {A} e.

(** A computation reads and updates the world and either returns or
    throws; updates made before a throw stay. *)
Definition M (A : Type) : Type := World -> Outcome A * World.

Definition ret {A} (a : A) : M A := fun w => (Returned a, w).

Definition throw {A} (e : Thrown) : M A := fun w => (Threw e, w).

Definition bind {A B} (c : M A) (k : A -> M B) : M B :=
  fun w =>
    match c w with
    | (Returned a, w') => k a w'
    | (Threw e, w') => (Threw e, w')
    end.

Declare Scope js_scope.
Delimit Scope js_scope with js.
Notation "x <- c ;; k" := (bind c (fun x => k))
  (at level 61, c at next level, right associativity) : js_scope.
Notation "c ;; k" := (bind c (fun _ => k))
  (at level 61, right associativity) : js_scope.
Local Open Scope js_scope.

(** [try { body } catch (err) { handler err }]. *)
Definition try_catch {A} (body : M A) (handler : Thrown -> M A) : M A :=
  fun w =>
    match body w with
    | (Returned a, w') => (Returned a, w')
    | (Threw e, w') => handler e w'
    end.

(** [try { body } finally { cleanup }], for a [cleanup] that does not
    itself return a value from the function. *)
Definition try_finally {A} (body : M A) (cleanup : M unit) : M A :=
  fun w =>
    match body w with
    | (r, w') =>
        match cleanup w' with
        | (Returned _, w'') => (r, w'')
        | (Threw e, w'') => (Threw e, w'')
        end
    end.

(** The result of an expression that may throw, inside a computation. *)
Definition lift {A} (r : Outcome A) : M A := fun w => (r, w).

Definition update_store (f : Store.AppState -> Store.AppState) : M unit :=
  fun w => (Returned tt,
            {| store := f (store w); console := console w;
               error := error w; summaryLoading := summaryLoading w |}).

Definition log (l : Level) (msg : string) : M unit :=
  fun w => (Returned tt,
            {| store := store w;
               console := console w ++ [mkLogLine l msg];
               error := error w; summaryLoading := summaryLoading w |}).

Definition setError (e : option string) : M unit :=
  fun w => (Returned tt,
            {| store := store w; console := console w;
               error := e; summaryLoading := summaryLoading w |}).

Definition setSummaryLoading (b : bool) : M unit :=
  fun w => (Returned tt,
            {| store := store w; console := console w;
               error := error w; summaryLoading := b |}).

(** What a handler reads from its surroundings during one call:
    [Date.now()] in milliseconds and the value [crypto.randomUUID()]
    returns.  Each handler below calls either at most once, and both
    calls are taken to return. *)
Record Env : Type := mkEnv {
  Date_now : Z;
  randomUUID : string
}.

(** [Date.now() / 1000]. *)
Definition now_seconds (env : Env) : Q := (Date_now env # 1000)%Q.

(** The functions of the JavaScript platform the sources call. *)
Record Platform : Type := mkPlatform {
  (** [new TextDecoder().decode]: UTF-8, malformed input replaced, never
      throws. *)
  TextDecoder_decode : list byte -> string;
  (** [JSON.parse]: throws a [SyntaxError] on text that is not JSON. *)
  JSON_parse : string -> Outcome JSValue;
  (** [String.prototype.trim]. *)
  String_trim : string -> string;
  (** [URLSearchParams.prototype.toString] on the pairs set so far. *)
  URLSearchParams_toString : list (string * string) -> string;
  (** [import.meta.env.VITE_API_BASE_URL]. *)
  VITE_API_BASE_URL : option string
}.

(** [v.k] for the property names the bridge reads ([type], [speaker],
    [text], [timestamp], [item_id], [name], [arguments], [output],
    [call_id]): a [TypeError] on [null] and [undefined], the member of an
    object, and [undefined] on every other value, none of which has or
    inherits a property of one of these names. *)
Definition get_prop (v : JSValue) (k : string) : Outcome JSValue :=
  match v with
  | JUndefined | JNull =>
      Threw (ErrorObject "TypeError" ("Cannot read properties of null or undefined (reading '" ++ k ++ "')"))
  | JObj members => Returned (lookup_member k members)
  | _ => Returned JUndefined
  end.

(** [v === "literal"]. *)
Definition strict_eq_string (v : JSValue) (literal : string) : bool :=
  match v with
  | JStr s => String.eqb s literal
  | _ => false
  end.

(* ================================================================== *)
(** ** hooks/LivekitBridge.tsx *)

Module Bridge.

Record Participant : Type := mkParticipant {
  identity : string
}.

(** The fields of a transcription segment the handler reads; [None] is a
    field that is [undefined]. *)
Record TranscriptionSegment : Type := mkSegment {
  text : option string;
  participant : option Participant;
  startTime : option Q;
  id : option string
}.

Record Room : Type := mkRoom {
  name : string;
  localParticipant : Participant
}.

Section Handlers.

Variable platform : Platform.
Variable room : Room.

(** [!segment?.text]: the segment is missing, or its text is missing or
    the empty string. *)
Definition segment_text (segment : option TranscriptionSegment) : option string :=
  match segment with
  | None => None
  | Some seg =>
      match text seg with
      | None => None
      | Some EmptyString => None
      | Some t => Some t
      end
  end.

(** [segment.participant?.identity === room.localParticipant.identity]. *)
Definition from_local (seg : TranscriptionSegment) : bool :=
  match participant seg with
  | None => false
  | Some p => String.eqb (identity p) (identity (localParticipant room))
  end.

Definition handleTranscription (env : Env) (segment : option TranscriptionSegment)
  : M unit :=
  match segment, segment_text segment with
  | Some seg, Some t =>
      log Debug "[ui] transcription" ;;
      update_store (Store.addTranscript
        {| speaker := if from_local seg then JStr "user" else JStr "assistant";
           Types.text := JStr t;
           timestamp := JNum (match startTime seg with
                              | Some st => st
                              | None => now_seconds env
                              end);
           itemId := JStr (match id seg with
                           | Some i => i
                           | None => randomUUID env
                           end) |})
  | _, _ => ret tt
  end.

(** [topic?.startsWith("app.")], as a condition. *)
Definition topic_accepted (topic : option string) : bool :=
  match topic with
  | None => false
  | Some t => String.prefix "app." t
  end.

Definition handleData (env : Env) (payload : list byte) (topic : option string)
  : M unit :=
  if negb (topic_accepted topic) then ret tt
  else
    log Debug "[ui] data message" ;;
    try_catch
      (parsed <- lift (JSON_parse platform (TextDecoder_decode platform payload)) ;;
       type1 <- lift (get_prop parsed "type") ;;
       (if strict_eq_string type1 "transcript" then
          p_speaker <- lift (get_prop parsed "speaker") ;;
          p_text <- lift (get_prop parsed "text") ;;
          p_timestamp <- lift (get_prop parsed "timestamp") ;;
          p_item_id <- lift (get_prop parsed "item_id") ;;
          update_store (Store.addTranscript
            {| speaker := coalesce p_speaker (JStr "assistant");
               Types.text := coalesce p_text (JStr EmptyString);
               timestamp := coalesce p_timestamp (JNum (now_seconds env));
               itemId := coalesce p_item_id (JStr (randomUUID env)) |})
        else ret tt) ;;
       type2 <- lift (get_prop parsed "type") ;;
       (if strict_eq_string type2 "tool" then
          p_name <- lift (get_prop parsed "name") ;;
          p_arguments <- lift (get_prop parsed "arguments") ;;
          p_output <- lift (get_prop parsed "output") ;;
          p_timestamp <- lift (get_prop parsed "timestamp") ;;
          p_call_id <- lift (get_prop parsed "call_id") ;;
          update_store (Store.addToolEvent
            {| Types.name := p_name;
               arguments := coalesce p_arguments (JObj []);
               output := p_output;
               tool_timestamp := coalesce p_timestamp (JNum (now_seconds env));
               callId := p_call_id |})
        else ret tt))
      (fun err => log Warn "Failed to parse data message").

(** An event delivered to the bridge while it is subscribed: class A is
    [RoomEvent.TranscriptionReceived], class B is [RoomEvent.DataReceived]. *)
Inductive Inbound : Type :=
| TranscriptionReceived (segment : option TranscriptionSegment)
| DataReceived (payload : list byte) (topic : option string).

Definition deliver (ev : Env * Inbound) : M unit :=
  match ev with
  | (env, TranscriptionReceived segment) => handleTranscription env segment
  | (env, DataReceived payload topic) => handleData env payload topic
  end.

(** The handlers run one after the other, each to completion, in the
    order of delivery; a handler that throws stops the run. *)
Fixpoint deliver_all (evs : list (Env * Inbound)) : M unit :=
  match evs with
  | [] => ret tt
  | ev :: rest => deliver ev ;; deliver_all rest
  end.

End Handlers.

End Bridge.

(* ================================================================== *)
(** ** lib/api.ts *)

Module Api.

(** [RequestInit & { json? }], for the fields the callers set. *)
Record FetchOptions : Type := mkFetchOptions {
  method : option string;
  json : option JSValue;
  body : option string
}.

Definition no_options : FetchOptions := mkFetchOptions None None None.

(** The arguments [fetch] is called with: the URL, the caller's options,
    whether the [Content-Type: application/json] header was set, and the
    body, which is the [JSON.stringify] text of a value or the caller's
    own body. *)
Inductive RequestBody : Type :=
| JsonText (v : JSValue)
| RawBody (b : option string).

Record Request : Type := mkRequest {
  url : string;
  init : FetchOptions;
  json_header : bool;
  sent_body : RequestBody
}.

(** A response: its status and what [response.json()] settles to, read at
    the type [apiFetch<T>] casts it to. *)
Record Response (T : Type) : Type := mkResponse {
  status : N;
  json_body : Outcome T
}.

(** [response.ok]: the status is in the range 200 to 299. *)
Definition ok {T} (r : Response T) : bool :=
  ((200 <=? status r) && (status r <=? 299))%N.

(** What the promise returned by [fetch] settles to. *)
Inductive FetchOutcome (T : Type) : Type :=
| Rejected (e : Thrown)
| Resolved (r : Response T).

Arguments Rejected {T} e.
Arguments Resolved {T} r.

(** [`${n}`] for a non-negative integer. *)
Definition decimal (n : N) : string := NilZero.string_of_uint (N.to_uint n).

Record SessionPayload : Type := mkSessionPayload {
  display_name : string;
  phone_number : string;
  room_name : option string
}.

Record SessionResponse : Type := mkSessionResponse {
  r_room_name : string;
  r_identity : string;
  r_token : string;
  r_expires_at : Q;
  r_livekit_url : string
}.

Record BackendConfig : Type := mkBackendConfig {
  c_livekit_url : string;
  default_timezone : string
}.

(** The platform's [fetch] as each wrapper sees it. *)
Record Network : Type := mkNetwork {
  fetch_session : Request -> FetchOutcome SessionResponse;
  fetch_summaries : Request -> FetchOutcome (option (list SummaryRecord));
  fetch_config : Request -> FetchOutcome (option BackendConfig)
}.

Section Client.

Variable platform : Platform.
Variable network : Network.

Definition API_BASE_URL : string :=
  match VITE_API_BASE_URL platform with
  | Some u => u
  | None => "http://localhost:8000"
  end.

Definition await_fetch {T} (o : FetchOutcome T) : M (Response T) :=
  match o with
  | Rejected e => throw e
  | Resolved r => ret r
  end.

(** The call [fetch(`${API_BASE_URL}${path}`, { ...options, headers, body })]. *)
Definition request_of (path : string) (options : FetchOptions) : Request :=
  {| url := API_BASE_URL ++ path;
     init := options;
     json_header := match json options with Some _ => true | None => false end;
     sent_body := match json options with
                  | Some v => JsonText v
                  | None => RawBody (body options)
                  end |}.

Definition apiFetch {T} (fetch : Request -> FetchOutcome T)
  (path : string) (options : FetchOptions) : M T :=
  log Info "[api] request" ;;
  try_catch
    (response <- await_fetch (fetch (request_of path options)) ;;
     log Info "[api] response" ;;
     (if negb (ok response)
      then throw (ErrorObject "Error" ("API error " ++ decimal (status response)))
      else ret tt) ;;
     lift (json_body response))
    (fun error =>
       log Error "[api] request failed" ;;
       throw error).

(** The payload as the object handed to [json:]; [room_name] is a member
    only when it was assigned. *)
Definition payload_object (payload : SessionPayload) : JSValue :=
  JObj ([("display_name", JStr (display_name payload));
         ("phone_number", JStr (phone_number payload))]
        ++ match room_name payload with
           | Some r => [("room_name", JStr r)]
           | None => []
           end).

Definition session_options (payload : SessionPayload) : FetchOptions :=
  {| method := Some "POST"; json := Some (payload_object payload); body := None |}.

Definition requestSession (payload : SessionPayload) : M SessionResponse :=
  apiFetch (fetch_session network) "/api/session" (session_options payload).

(** [fetchSummaries(phone?, limit = 3)], with [limit] given. *)
Definition summaries_path (phone : option string) (limit : N) : string :=
  let query :=
    match phone with
    | Some (String c rest) => [("phone", String c rest)]
    | _ => []
    end ++ [("limit", decimal limit)] in
  "/api/summaries?" ++ URLSearchParams_toString platform query.

Definition fetchSummaries (phone : option string) (limit : N)
  : M (option (list SummaryRecord)) :=
  apiFetch (fetch_summaries network) (summaries_path phone limit) no_options.

Definition fetchConfig : M (option BackendConfig) :=
  apiFetch (fetch_config network) "/api/config" no_options.

(** The status an error raised by [apiFetch] carries in its message. *)
Definition carried_status (e : Thrown) : option N :=
  match e with
  | ErrorObject _ msg =>
      if String.prefix "API error " msg
      then option_map N.of_uint
             (NilZero.uint_of_string (substring 10 (String.length msg - 10) msg))
      else None
  | OtherThrown _ => None
  end.

End Client.

End Api.

(* ================================================================== *)
(** ** App.tsx *)

Module App.

(** The three form fields held by the component. *)
Record Form : Type := mkForm {
  displayName : string;
  phoneNumber : string;
  roomName : string
}.

(** Truthiness of a string: it is not empty. *)
Definition truthy (s : string) : bool :=
  match s with
  | EmptyString => false
  | String _ _ => true
  end.

(** [Boolean(token && livekitUrl)]. *)
Definition connected (s : Store.AppState) : bool :=
  match Store.token s, Store.livekitUrl s with
  | Some t, Some u => truthy t && truthy u
  | _, _ => false
  end.

Section Component.

Variable platform : Platform.
Variable network : Api.Network.

(** The effect run on mount: [fetchConfig().then(...).catch(...)]. *)
Definition loadConfig : M unit :=
  try_catch
    (config <- Api.fetchConfig platform network ;;
     match config with
     | Some c =>
         if truthy (Api.c_livekit_url c)
         then update_store (Store.setLivekitUrl (Api.c_livekit_url c)) ;;
              log Info "[ui] loaded backend config"
         else ret tt
     | None => ret tt
     end)
    (fun err => log Warn "[ui] failed to load backend config").

Definition loadLatestSummary (phone : string) : M unit :=
  if negb (truthy phone) then ret tt
  else
    setSummaryLoading true ;;
    log Info "[ui] fetching latest summary" ;;
    try_finally
      (try_catch
         (records <- Api.fetchSummaries platform network (Some phone) 1 ;;
          update_store (Store.setSummary
            match records with
            | Some (first :: _) => Some first
            | _ => None
            end) ;;
          log Info "[ui] summary response")
         (fun err => log Warn "[ui] unable to fetch summaries"))
      (setSummaryLoading false).

Definition handleConnect (form : Form) : M unit :=
  let trim := String_trim platform in
  if negb (truthy (trim (displayName form))) || negb (truthy (trim (phoneNumber form)))
  then setError (Some "Display name and phone are required")
  else
    setError None ;;
    update_store Store.beginConnect ;;
    log Info "[ui] starting connect flow" ;;
    try_catch
      (let payload :=
         {| Api.display_name := trim (displayName form);
            Api.phone_number := trim (phoneNumber form);
            Api.room_name := if truthy (trim (roomName form))
                             then Some (trim (roomName form)) else None |} in
       session <- Api.requestSession platform network payload ;;
       update_store (Store.setSession
         {| Store.sp_token := Api.r_token session;
            Store.sp_identity := Api.r_identity session;
            Store.sp_roomName := Api.r_room_name session;
            Store.sp_livekitUrl := Api.r_livekit_url session;
            Store.sp_phone := trim (phoneNumber form) |}) ;;
       log Info "[ui] session established" ;;
       loadLatestSummary (trim (phoneNumber form)))
      (fun err =>
         log Error "[ui] session request failed" ;;
         setError (Some match err with
                        | ErrorObject _ msg => msg
                        | OtherThrown _ => "Failed to start session"
                        end) ;;
         update_store Store.clearSession).

Definition handleDisconnect : M unit :=
  log Info "[ui] disconnect requested" ;;
  update_store Store.clearSession.

Definition handleRefreshSummary : M unit :=
  fun w =>
    match Store.callerPhone (store w) with
    | Some (String c rest) =>
        (log Info "[ui] manual summary refresh" ;;
         loadLatestSummary (String c rest)) w
    | _ => (Returned tt, w)
    end.

End Component.

End App.

(* ================================================================== *)
(** ** A concrete platform, to run the handlers on examples *)

(** [TextDecoder_decode] is exact on well-formed UTF-8 (the text keeps its
    bytes, a leading byte-order mark is dropped); [JSON_parse] reads the
    JSON grammar, with [\u] escapes of surrogates left out; [String_trim]
    strips the ASCII white space and line terminators;
    [URLSearchParams_toString] is the form-urlencoded serializer. *)
Module Reference.

Local Open Scope char_scope.

Definition dquote : ascii := "034".
Definition backslash : ascii := "092".

Definition decode (payload : list byte) : string :=
  match payload with
  | xef :: xbb :: xbf :: rest => string_of_list_byte rest
  | _ => string_of_list_byte payload
  end.

Definition is_json_space (c : ascii) : bool :=
  match c with
  | " " | "009" | "010" | "013" => true
  | _ => false
  end.

Fixpoint skip_space (s : string) : string :=
  match s with
  | String c rest => if is_json_space c then skip_space rest else s
  | EmptyString => s
  end.

Definition digit (c : ascii) : option Z :=
  let n := Z.of_N (N_of_ascii c) in
  if ((48 <=? n) && (n <=? 57))%Z then Some (n - 48)%Z else None.

Definition hex_digit (c : ascii) : option Z :=
  let n := Z.of_N (N_of_ascii c) in
  if ((48 <=? n) && (n <=? 57))%Z then Some (n - 48)%Z
  else if ((65 <=? n) && (n <=? 70))%Z then Some (n - 55)%Z
  else if ((97 <=? n) && (n <=? 102))%Z then Some (n - 87)%Z
  else None.

(** The longest run of digits at the head of [s]: its value after [acc],
    its length, and the rest. *)
Fixpoint digits (s : string) (acc : Z) (count : nat) : Z * nat * string :=
  match s with
  | String c rest =>
      match digit c with
      | Some d => digits rest (10 * acc + d)%Z (S count)
      | None => (acc, count, s)
      end
  | EmptyString => (acc, count, s)
  end.

Definition scale (mantissa exponent : Z) : Q :=
  if (0 <=? exponent)%Z
  then inject_Z (mantissa * 10 ^ exponent)
  else (mantissa # Z.to_pos (10 ^ (- exponent)))%Q.

(** [-? int frac? exp?] *)
Definition parse_number (s : string) : option (Q * string) :=
  let '(negative, s1) :=
    match s with
    | String "-" rest => (true, rest)
    | _ => (false, s)
    end in
  let '(int_part, int_len, s2) := digits s1 0%Z 0 in
  let leading_zero :=
    match s1 with
    | String "0" _ => Nat.ltb 1 int_len
    | _ => false
    end in
  if Nat.eqb int_len 0 || leading_zero then None
  else
    let frac :=
      match s2 with
      | String "." rest =>
          let '(m, n, s3) := digits rest int_part 0 in
          if Nat.eqb n 0 then None else Some (m, Z.of_nat n, s3)
      | _ => Some (int_part, 0%Z, s2)
      end in
    match frac with
    | None => None
    | Some (mantissa, frac_len, s3) =>
        let signed := if negative then (- mantissa)%Z else mantissa in
        match s3 with
        | String e rest =>
            if Ascii.eqb e "e" || Ascii.eqb e "E" then
              let '(exp_negative, s4) :=
                match rest with
                | String "-" r => (true, r)
                | String "+" r => (false, r)
                | _ => (false, rest)
                end in
              let '(x, n, s5) := digits s4 0%Z 0 in
              if Nat.eqb n 0 then None
              else Some (scale signed ((if exp_negative then - x else x) - frac_len), s5)
            else Some (scale signed (- frac_len), s3)
        | EmptyString => Some (scale signed (- frac_len), s3)
        end
    end.

Definition byte_char (n : Z) : ascii := ascii_of_N (Z.to_N n).

(** The UTF-8 bytes of a code point of the basic plane. *)
Definition utf8 (cp : Z) : string :=
  if (cp <? 128)%Z then String (byte_char cp) EmptyString
  else if (cp <? 2048)%Z then
    String (byte_char (192 + cp / 64))
      (String (byte_char (128 + cp mod 64)) EmptyString)
  else
    String (byte_char (224 + cp / 4096))
      (String (byte_char (128 + (cp / 64) mod 64))
         (String (byte_char (128 + cp mod 64)) EmptyString)).

Definition simple_escape (c : ascii) : option ascii :=
  match c with
  | "034" => Some dquote
  | "092" => Some backslash
  | "/" => Some "/"
  | "b" => Some "008"
  | "f" => Some "012"
  | "n" => Some "010"
  | "r" => Some "013"
  | "t" => Some "009"
  | _ => None
  end.

(** The characters of a string literal after its opening quote, up to the
    closing one. *)
Fixpoint string_body (s : string) : option (string * string) :=
  match s with
  | EmptyString => None
  | String "034" rest => Some (EmptyString, rest)
  | String "092" (String "u" (String a (String b (String c (String d rest))))) =>
      match hex_digit a, hex_digit b, hex_digit c, hex_digit d with
      | Some x3, Some x2, Some x1, Some x0 =>
          let cp := (4096 * x3 + 256 * x2 + 16 * x1 + x0)%Z in
          if ((55296 <=? cp) && (cp <=? 57343))%Z then None
          else
            match string_body rest with
            | Some (tail, rest') => Some ((utf8 cp ++ tail)%string, rest')
            | None => None
            end
      | _, _, _, _ => None
      end
  | String "092" (String e rest) =>
      match simple_escape e with
      | Some c =>
          match string_body rest with
          | Some (tail, rest') => Some (String c tail, rest')
          | None => None
          end
      | None => None
      end
  | String "092" EmptyString => None
  | String c rest =>
      if (N_of_ascii c <? 32)%N then None
      else
        match string_body rest with
        | Some (tail, rest') => Some (String c tail, rest')
        | None => None
        end
  end.

Definition literal (word : string) (v : JSValue) (s : string)
  : option (JSValue * string) :=
  if String.prefix word s
  then Some (v, substring (String.length word) (String.length s - String.length word) s)
  else None.

Fixpoint parse_value (fuel : nat) (s : string) : option (JSValue * string) :=
  match fuel with
  | O => None
  | S fuel' =>
      match skip_space s with
      | String "{" rest =>
          match skip_space rest with
          | String "}" rest' => Some (JObj [], rest')
          | rest' => parse_members fuel' rest' []
          end
      | String "[" rest =>
          match skip_space rest with
          | String "]" rest' => Some (JArr [], rest')
          | rest' => parse_elements fuel' rest' []
          end
      | String "034" rest =>
          match string_body rest with
          | Some (str, rest') => Some (JStr str, rest')
          | None => None
          end
      | String "t" _ as s' => literal "true" (JBool true) s'
      | String "f" _ as s' => literal "false" (JBool false) s'
      | String "n" _ as s' => literal "null" JNull s'
      | s' =>
          match parse_number s' with
          | Some (q, rest) => Some (JNum q, rest)
          | None => None
          end
      end
  end
with parse_members (fuel : nat) (s : string) (acc : list (string * JSValue))
  : option (JSValue * string) :=
  match fuel with
  | O => None
  | S fuel' =>
      match skip_space s with
      | String "034" rest =>
          match string_body rest with
          | Some (key, rest1) =>
              match skip_space rest1 with
              | String ":" rest2 =>
                  match parse_value fuel' rest2 with
                  | Some (v, rest3) =>
                      match skip_space rest3 with
                      | String "," rest4 => parse_members fuel' rest4 (acc ++ [(key, v)])
                      | String "}" rest4 => Some (JObj (acc ++ [(key, v)]), rest4)
                      | _ => None
                      end
                  | None => None
                  end
              | _ => None
              end
          | None => None
          end
      | _ => None
      end
  end
with parse_elements (fuel : nat) (s : string) (acc : list JSValue)
  : option (JSValue * string) :=
  match fuel with
  | O => None
  | S fuel' =>
      match parse_value fuel' s with
      | Some (v, rest) =>
          match skip_space rest with
          | String "," rest' => parse_elements fuel' rest' (acc ++ [v])
          | String "]" rest' => Some (JArr (acc ++ [v]), rest')
          | _ => None
          end
      | None => None
      end
  end.

Definition syntax_error : Thrown :=
  ErrorObject "SyntaxError" "Unexpected token in JSON".

(** Every call of the parser consumes a character before it calls itself
    again, so twice the length of the text is fuel enough. *)
Definition parse (s : string) : Outcome JSValue :=
  match parse_value (2 * String.length s + 2) s with
  | Some (v, rest) =>
      match skip_space rest with
      | EmptyString => Returned v
      | _ => Threw syntax_error
      end
  | None => Threw syntax_error
  end.

Definition is_trim_space (c : ascii) : bool :=
  let n := N_of_ascii c in
  ((9 <=? n) && (n <=? 13) || (n =? 32))%N.

Fixpoint trim_start (s : string) : string :=
  match s with
  | String c rest => if is_trim_space c then trim_start rest else s
  | EmptyString => s
  end.

Fixpoint trim_end (s : string) : string :=
  match s with
  | EmptyString => EmptyString
  | String c rest =>
      match trim_end rest with
      | EmptyString => if is_trim_space c then EmptyString else String c EmptyString
      | kept => String c kept
      end
  end.

Definition trim (s : string) : string := trim_end (trim_start s).

Definition hex_char (n : N) : ascii :=
  ascii_of_N (if (n <? 10)%N then 48 + n else 55 + n)%N.

Definition urlencode_char (c : ascii) : string :=
  let n := N_of_ascii c in
  if ((48 <=? n) && (n <=? 57) || (65 <=? n) && (n <=? 90)
      || (97 <=? n) && (n <=? 122)
      || (n =? 42) || (n =? 45) || (n =? 46) || (n =? 95))%N
  then String c EmptyString
  else if (n =? 32)%N then String "+" EmptyString
  else String "%" (String (hex_char (n / 16)) (String (hex_char (n mod 16)) EmptyString)).

Fixpoint urlencode (s : string) : string :=
  match s with
  | EmptyString => EmptyString
  | String c rest => (urlencode_char c ++ urlencode rest)%string
  end.

Definition query_string (pairs : list (string * string)) : string :=
  String.concat "&"
    (map (fun kv => (urlencode (fst kv) ++ "=" ++ urlencode (snd kv))%string) pairs).

Definition platform : Platform :=
  {| TextDecoder_decode := decode;
     JSON_parse := parse;
     String_trim := trim;
     URLSearchParams_toString := query_string;
     VITE_API_BASE_URL := None |}.

(** Test payloads are written with ['] where the JSON text has a double
    quote. *)
Definition requote (c : ascii) : ascii :=
  if Ascii.eqb c "'" then dquote else c.

Fixpoint requote_all (s : string) : string :=
  match s with
  | EmptyString => EmptyString
  | String c rest => String (requote c) (requote_all rest)
  end.

Definition bytes (s : string) : list byte := list_byte_of_string (requote_all s).

End Reference.

(* ================================================================== *)
(** * Notions used in the statements *)

Module Statements.
Import Bridge Api App.

(** The world when the page has just loaded. *)
Definition initial_world : World :=
  {| store := Store.initial; console := []; error := None;
     summaryLoading := false |}.

(** Replacing the store inside a world. *)
Definition with_store (s : Store.AppState) (w : World) : World :=
  {| store := s; console := console w; error := error w;
     summaryLoading := summaryLoading w |}.

Definition logged (lines : list LogLine) (w : World) : World :=
  {| store := store w; console := console w ++ lines; error := error w;
     summaryLoading := summaryLoading w |}.

(** *** The store *)

(** The credential and the connection URL are both present or both
    absent. *)
Definition both_or_neither (s : Store.AppState) : bool :=
  Bool.eqb (Store.present (Store.token s)) (Store.present (Store.livekitUrl s)).

(** A credential is only ever present together with a connection URL. *)
Definition token_needs_url (s : Store.AppState) : bool :=
  implb (Store.present (Store.token s)) (Store.present (Store.livekitUrl s)).

(** *** The bridge *)

Definition debug_line : LogLine := mkLogLine Debug "[ui] data message".
Definition warn_line : LogLine := mkLogLine Warn "Failed to parse data message".

(** The entry [handleData] builds from the members of a [transcript]
    message. *)
Definition transcript_of (env : Env) (members : list (string * JSValue))
  : TranscriptEntry :=
  {| speaker := coalesce (lookup_member "speaker" members) (JStr "assistant");
     Types.text := coalesce (lookup_member "text" members) (JStr EmptyString);
     timestamp := coalesce (lookup_member "timestamp" members) (JNum (now_seconds env));
     itemId := coalesce (lookup_member "item_id" members) (JStr (randomUUID env)) |}.

(** The event [handleData] builds from the members of a [tool] message. *)
Definition tool_of (env : Env) (members : list (string * JSValue)) : ToolEvent :=
  {| Types.name := lookup_member "name" members;
     arguments := coalesce (lookup_member "arguments" members) (JObj []);
     output := lookup_member "output" members;
     tool_timestamp := coalesce (lookup_member "timestamp" members) (JNum (now_seconds env));
     callId := lookup_member "call_id" members |}.

(** A JSON value that is a [transcript] or a [tool] message. *)
Definition transcript_or_tool (v : Outcome JSValue) : bool :=
  match v with
  | Returned (JObj members) =>
      strict_eq_string (lookup_member "type" members) "transcript"
      || strict_eq_string (lookup_member "type" members) "tool"
  | _ => false
  end.

(** A valid inbound event: a segment with a text that is not empty, or a
    payload on an ["app."] topic that reads as a [transcript] or [tool]
    message. *)
Definition valid (platform : Platform) (ev : Env * Inbound) : bool :=
  match snd ev with
  | TranscriptionReceived segment =>
      match segment with
      | Some {| text := Some (String _ _) |} => true
      | _ => false
      end
  | DataReceived payload topic =>
      match topic with
      | Some t => String.prefix "app." t
      | None => false
      end
      && transcript_or_tool
           (JSON_parse platform (TextDecoder_decode platform payload))
  end.

(** What one event appends to the two logs when it is delivered to a
    freshly loaded page. *)
Definition contribution (platform : Platform) (room : Room) (ev : Env * Inbound)
  : list TranscriptEntry * list ToolEvent :=
  let w := snd (deliver platform room ev initial_world) in
  (Store.transcripts (store w), Store.toolEvents (store w)).

Definition appends (ts : list TranscriptEntry) (tls : list ToolEvent)
  (w w' : World) : Prop :=
  Store.transcripts (store w') = Store.transcripts (store w) ++ ts
  /\ Store.toolEvents (store w') = Store.toolEvents (store w) ++ tls.

(** *** The API client *)

(** The error [apiFetch] raises for a response that is not [ok]. *)
Definition status_error (n : N) : Thrown :=
  ErrorObject "Error" ("API error " ++ decimal n).

(** What the promise returned by [apiFetch] settles to, given what
    [fetch] settled to. *)
Definition settle {T} (o : FetchOutcome T) : Outcome T :=
  match o with
  | Rejected e => Threw e
  | Resolved r => if ok r then json_body r else Threw (status_error (status r))
  end.

(** *** The connect flow *)

(** The request body and the [setSession] argument [handleConnect] builds
    from the form. *)
Definition payload_of (platform : Platform) (form : Form) : SessionPayload :=
  let trim := String_trim platform in
  {| display_name := trim (displayName form);
     phone_number := trim (phoneNumber form);
     room_name := if truthy (trim (roomName form))
                  then Some (trim (roomName form)) else None |}.

Definition params_of (platform : Platform) (form : Form) (session : SessionResponse)
  : Store.SessionParams :=
  {| Store.sp_token := r_token session;
     Store.sp_identity := r_identity session;
     Store.sp_roomName := r_room_name session;
     Store.sp_livekitUrl := r_livekit_url session;
     Store.sp_phone := String_trim platform (phoneNumber form) |}.

(** What the session request of [handleConnect] settles to. *)
Definition session_outcome platform network (form : Form) : Outcome SessionResponse :=
  settle (fetch_session network
            (request_of platform "/api/session"
               (session_options (payload_of platform form)))).

(** What the summary request of [loadLatestSummary] settles to. *)
Definition summaries_outcome platform network (phone : string)
  : Outcome (option (list SummaryRecord)) :=
  settle (fetch_summaries network
            (request_of platform (summaries_path platform (Some phone) 1) no_options)).

(** [records?.[0] ?? null]. *)
Definition latest (records : option (list SummaryRecord)) : option SummaryRecord :=
  match records with
  | Some (first :: _) => Some first
  | _ => None
  end.

(** [err instanceof Error ? err.message : "Failed to start session"]. *)
Definition message_of (e : Thrown) : string :=
  match e with
  | ErrorObject _ msg => msg
  | OtherThrown _ => "Failed to start session"
  end.

End Statements.

(* ================================================================== *)
(** * Concrete inputs *)

Module Samples.
Import Bridge Api App.

Definition env0 : Env :=
  {| Date_now := 1700000000000;
     randomUUID := "3b241101-e2bb-4255-8caf-4136c566a962" |}.

Definition room0 : Room :=
  {| name := "r1"; localParticipant := {| identity := "id1" |} |}.

(** A world in the middle of a call. *)
Definition busy_world : World :=
  {| store :=
       Store.addTranscript
         {| speaker := JStr "user"; Types.text := JStr "hello";
            timestamp := JNum (17 # 1); itemId := JStr "seg-0" |}
         (Store.setSession
            (Store.mkSessionParams "t1" "id1" "r1" "wss://x" "+15555550123")
            Store.initial);
     console := []; error := None; summaryLoading := false |}.

Definition transcript_message : list byte :=
  Reference.bytes "{'type':'transcript','speaker':'user','text':'hi','timestamp':12.5,'item_id':'m1'}".

Definition empty_transcript_message : list byte :=
  Reference.bytes "{'type':'transcript','text':''}".

Definition robot_message : list byte :=
  Reference.bytes "{'type':'transcript','speaker':'robot'}".

Definition tool_message : list byte :=
  Reference.bytes "{'type':'tool','name':'book_appointment','arguments':{'slot':'10:00'},'call_id':'c1'}".

Definition broken_message : list byte :=
  Reference.bytes "{'type':'transcript','text':".

Definition agent_segment : TranscriptionSegment :=
  {| text := Some "How can I help?";
     participant := Some {| identity := "agent-7" |};
     startTime := Some (3 # 2)%Q;
     id := Some "seg-1" |}.

Definition silent_segment : TranscriptionSegment :=
  {| text := Some EmptyString;
     participant := Some {| identity := "id1" |};
     startTime := None;
     id := None |}.

Definition three_events : list (Env * Inbound) :=
  [ (env0, TranscriptionReceived (Some agent_segment));
    (env0, DataReceived tool_message (Some "app.timeline"));
    (env0, DataReceived transcript_message (Some "app.transcript")) ].

Definition session1 : SessionResponse :=
  {| r_room_name := "r1"; r_identity := "id1"; r_token := "t1";
     r_expires_at := (1700003600 # 1)%Q; r_livekit_url := "wss://x" |}.

Definition fetch_failed : Thrown := ErrorObject "TypeError" "Failed to fetch".

(** A backend that answers every session request with status 500. *)
Definition failing_network : Network :=
  {| fetch_session := fun _ =>
       Resolved {| status := 500;
                   json_body := Threw Reference.syntax_error |};
     fetch_summaries := fun _ => Rejected fetch_failed;
     fetch_config := fun _ => Rejected fetch_failed |}.

(** A backend that issues sessions and cannot be reached for summaries. *)
Definition summaryless_network : Network :=
  {| fetch_session := fun _ =>
       Resolved {| status := 200; json_body := Returned session1 |};
     fetch_summaries := fun _ => Rejected fetch_failed;
     fetch_config := fun _ => Rejected fetch_failed |}.

Definition form0 : Form :=
  {| displayName := "Aida QA"; phoneNumber := "+15555550123";
     roomName := EmptyString |}.

Definition blank_form : Form :=
  {| displayName := "   "; phoneNumber := "+15555550123";
     roomName := EmptyString |}.

Definition payload0 : SessionPayload :=
  {| display_name := "A"; phone_number := "+15555550123"; room_name := None |}.

End Samples.

(* ================================================================== *)
(** ** components/*.tsx: what the panels compute from the state *)

Module Components.

(** [statusCopy] of [LiveCallStage]. *)
Definition statusCopy (connecting connected : bool) : string :=
  if connecting then "Requesting LiveKit token"
  else if connected then "Agent is live in the room"
  else "Fill the form to start a call".

(** [LiveCallStage]: the three [dd] cells, [value ?? placeholder]. *)
Definition stage_meta (roomName identity callerPhone : option string)
  : string * string * string :=
  (match roomName with Some r => r | None => "Pending" end,
   match identity with Some i => i | None => "-" end,
   match callerPhone with Some c => c | None => "+1 ???" end).

(** [LiveCallStage]: the End Session button is rendered when [connected]. *)
Definition end_session_shown (connected : bool) : bool := connected.

(** [SessionForm]: [disabled={connecting || connected}] on the three
    inputs and on the submit button. *)
Definition form_disabled (connecting connected : bool) : bool :=
  connecting || connected.

(** [SessionForm]: the text of the submit button. *)
Definition submit_label (connecting connected : bool) : string :=
  if connecting then "Connecting..."
  else if connected then "Connected"
  else "Connect & Join".

(** [SummaryPanel]: the text of the refresh button. *)
Definition refresh_label (loading : bool) : string :=
  if loading then "Refreshing..." else "Refresh".

Definition line_feed : ascii := "010"%char.

(** [text.split(/\n+/)]: the pieces between maximal runs of line feeds;
    a run at either end leaves an empty piece there.  [piece] is the
    piece being read and [in_run] tells that the last character was a
    line feed. *)
Fixpoint split_runs (s : string) (piece : string) (in_run : bool) : list string :=
  match s with
  | EmptyString => [piece]
  | String c rest =>
      if Ascii.eqb c line_feed
      then if in_run then split_runs rest EmptyString true
           else piece :: split_runs rest EmptyString true
      else split_runs rest (piece ++ String c EmptyString) false
  end.

Definition split_lines (s : string) : list string := split_runs s EmptyString false.

Section Panels.

Variable platform : Platform.
(** [String.prototype.toUpperCase]. *)
Variable toUpperCase : string -> string.

(** [normalizeBullets] of [SummaryPanel]:
    [text.split(/\n+/).map((line) => line.trim()).filter(Boolean)]. *)
Definition normalizeBullets (text : string) : list string :=
  filter App.truthy (map (String_trim platform) (split_lines text)).

(** [entry.speaker.toUpperCase()] in the header of a transcript entry: a
    method call on a value that is not a string throws a [TypeError]. *)
Definition speaker_heading (entry : TranscriptEntry) : Outcome string :=
  match speaker entry with
  | JStr s => Returned (toUpperCase s)
  | JUndefined | JNull =>
      Threw (ErrorObject "TypeError"
               "Cannot read properties of null or undefined (reading 'toUpperCase')")
  | _ => Threw (ErrorObject "TypeError" "entry.speaker.toUpperCase is not a function")
  end.

(** [entries.map((entry) => ...)] of [TranscriptPanel], for the headings:
    the first entry that throws ends the rendering. *)
Fixpoint speaker_headings (entries : list TranscriptEntry) : Outcome (list string) :=
  match entries with
  | [] => Returned []
  | entry :: rest =>
      match speaker_heading entry with
      | Threw e => Threw e
      | Returned h =>
          match speaker_headings rest with
          | Threw e => Threw e
          | Returned hs => Returned (h :: hs)
          end
      end
  end.

End Panels.

(** What [App] hands to [SessionForm] and [LiveCallStage] for a store
    state: [connecting] and [connected]. *)
Definition form_disabled_in (s : Store.AppState) : bool :=
  form_disabled (Store.connecting s) (App.connected s).

Definition status_in (s : Store.AppState) : string :=
  statusCopy (Store.connecting s) (App.connected s).

Definition submit_label_in (s : Store.AppState) : string :=
  submit_label (Store.connecting s) (App.connected s).

(** [App]: [LiveKitRoom] with the bridge inside is rendered when
    [connected && token && livekitUrl]. *)
Definition bridge_mounted (s : Store.AppState) : bool :=
  App.connected s
  && match Store.token s with Some t => App.truthy t | None => false end
  && match Store.livekitUrl s with Some u => App.truthy u | None => false end.

End Components.

(* ================================================================== *)
(** * Further notions used in the statements *)

Module MoreStatements.
Import Bridge Api App Statements.

(** *** The store *)

(** The four fields [setSession] and [clearSession] write together are
    all present or all absent. *)
Definition session_coherent (s : Store.AppState) : bool :=
  let t := Store.present (Store.token s) in
  Bool.eqb t (Store.present (Store.identity s))
  && Bool.eqb t (Store.present (Store.roomName s))
  && Bool.eqb t (Store.present (Store.callerPhone s)).

(** An operation that empties the logs. *)
Definition resets (a : Store.Action) : bool :=
  match a with
  | Store.SetSession _ | Store.ClearSession => true
  | _ => false
  end.

Definition added_transcripts (acts : list Store.Action) : list TranscriptEntry :=
  flat_map (fun a => match a with Store.AddTranscript e => [e] | _ => [] end) acts.

Definition added_toolEvents (acts : list Store.Action) : list ToolEvent :=
  flat_map (fun a => match a with Store.AddToolEvent e => [e] | _ => [] end) acts.

(** The state [s] with [ts] and [tls] appended to its two logs and
    every other field as it is. *)
Definition extend_logs (ts : list TranscriptEntry) (tls : list ToolEvent)
  (s : Store.AppState) : Store.AppState :=
  {| Store.livekitUrl := Store.livekitUrl s;
     Store.token := Store.token s;
     Store.identity := Store.identity s;
     Store.roomName := Store.roomName s;
     Store.callerPhone := Store.callerPhone s;
     Store.connecting := Store.connecting s;
     Store.transcripts := Store.transcripts s ++ ts;
     Store.toolEvents := Store.toolEvents s ++ tls;
     Store.summary := Store.summary s |}.

(** The state [s] with another summary. *)
Definition with_summary (r : option SummaryRecord) (s : Store.AppState)
  : Store.AppState :=
  {| Store.livekitUrl := Store.livekitUrl s;
     Store.token := Store.token s;
     Store.identity := Store.identity s;
     Store.roomName := Store.roomName s;
     Store.callerPhone := Store.callerPhone s;
     Store.connecting := Store.connecting s;
     Store.transcripts := Store.transcripts s;
     Store.toolEvents := Store.toolEvents s;
     Store.summary := r |}.

(** *** The bridge *)

Definition transcription_line : LogLine := mkLogLine Debug "[ui] transcription".

(** The entry [handleTranscription] builds from a segment and its text. *)
Definition segment_entry (room : Room) (env : Env) (seg : TranscriptionSegment)
  (t : string) : TranscriptEntry :=
  {| speaker := if from_local room seg then JStr "user" else JStr "assistant";
     Types.text := JStr t;
     timestamp := JNum (match startTime seg with
                        | Some st => st
                        | None => now_seconds env
                        end);
     itemId := JStr (match id seg with
                     | Some i => i
                     | None => randomUUID env
                     end) |}.

(** A field of a message is usable at a type when it is missing, null or
    of that type. *)
Definition missing_or (ok : JSValue -> bool) (v : JSValue) : bool :=
  nullish v || ok v.

(** The console after a world gained lines. *)
Definition same_but_console (w w' : World) : Prop :=
  store w' = store w /\ error w' = error w
  /\ summaryLoading w' = summaryLoading w
  /\ exists lines, console w' = console w ++ lines.

(** A world that differs from [w] by entries appended to the logs and
    lines appended to the console. *)
Definition grown (ts : list TranscriptEntry) (tls : list ToolEvent)
  (lines : list LogLine) (w : World) : World :=
  {| store := extend_logs ts tls (store w);
     console := console w ++ lines;
     error := error w;
     summaryLoading := summaryLoading w |}.

(** *** The panels *)

(** The bullets made of the pieces of a split text. *)
Definition bullets_of (platform : Platform) (pieces : list string) : list string :=
  filter truthy (map (String_trim platform) pieces).

(** *** The API client *)

Definition request_line : LogLine := mkLogLine Info "[api] request".
Definition failed_line : LogLine := mkLogLine Error "[api] request failed".

(** What the configuration request settles to. *)
Definition config_outcome platform network : Outcome (option BackendConfig) :=
  settle (fetch_config network (request_of platform "/api/config" no_options)).

(** *** The page as a whole *)




(** The caller phone, when there is one, is not empty. *)
Definition phone_ok (s : Store.AppState) : bool :=
  match Store.callerPhone s with
  | Some p => truthy p
  | None => true
  end.

(** The state of the store between two commands. *)
Definition settled (s : Store.AppState) : bool :=
  negb (Store.connecting s) && session_coherent s && token_needs_url s
  && phone_ok s.

End MoreStatements.

(* ================================================================== *)
(** * Further concrete inputs *)

Module MoreSamples.
Import Bridge Api App Samples.

Definition ping_message : list byte := Reference.bytes "{'type':'ping','n':1}".

Definition array_message : list byte := Reference.bytes "[1,2,3]".

Definition null_message : list byte := Reference.bytes "null".

Definition nameless_tool_message : list byte :=
  Reference.bytes "{'type':'tool','arguments':null,'output':[1]}".

Definition numbered_speaker_message : list byte :=
  Reference.bytes "{'type':'transcript','speaker':42,'text':'hi'}".

Definition local_segment : TranscriptionSegment :=
  {| text := Some "I need an appointment";
     participant := Some {| identity := "id1" |};
     startTime := None;
     id := None |}.

Definition mixed_events : list (Env * Inbound) :=
  [ (env0, TranscriptionReceived (Some silent_segment));
    (env0, DataReceived broken_message (Some "app.transcript"));
    (env0, DataReceived tool_message (Some "other.thing"));
    (env0, DataReceived null_message (Some "app.x"));
    (env0, DataReceived tool_message (Some "app.timeline"));
    (env0, TranscriptionReceived (Some local_segment)) ].

Definition entry0 : TranscriptEntry :=
  {| speaker := JStr "assistant"; Types.text := JStr "One moment.";
     timestamp := JNum (18 # 1); itemId := JStr "seg-9" |}.

Definition event0 : ToolEvent :=
  {| Types.name := JStr "lookup_slots"; arguments := JObj [];
     output := JUndefined; tool_timestamp := JNum (19 # 1);
     callId := JNull |}.

Definition quiet_actions : list Store.Action :=
  [ Store.AddTranscript entry0; Store.SetSummary None; Store.AddToolEvent event0;
    Store.BeginConnect; Store.SetLivekitUrl "wss://y";
    Store.AddTranscript entry0 ].


Definition record1 : SummaryRecord :=
  {| Types.id := "sum-1"; summary_text := "- booked 10:00";
     preferences := None; appointments_in_call := None;
     cost_breakdown := None; action_items := None; timeline := None;
     transcript := None; created_at := "2026-01-05T10:00:00Z" |}.

Definition record2 : SummaryRecord :=
  {| Types.id := "sum-0"; summary_text := "- asked for hours";
     preferences := None; appointments_in_call := None;
     cost_breakdown := None; action_items := None; timeline := None;
     transcript := None; created_at := "2026-01-04T09:00:00Z" |}.

Definition session_without_token : SessionResponse :=
  {| r_room_name := "r1"; r_identity := "id1"; r_token := EmptyString;
     r_expires_at := (1700003600 # 1)%Q; r_livekit_url := "wss://x" |}.

(** A backend where every request succeeds. *)
Definition full_network : Network :=
  {| fetch_session := fun _ =>
       Resolved {| status := 200;
                   json_body := Returned
                     {| r_room_name := "r1"; r_identity := "id1"; r_token := "t1";
                        r_expires_at := (1700003600 # 1)%Q;
                        r_livekit_url := "wss://x" |} |};
     fetch_summaries := fun _ =>
       Resolved {| status := 200;
                   json_body := Returned (Some [record1; record2]) |};
     fetch_config := fun _ =>
       Resolved {| status := 200;
                   json_body := Returned
                     (Some {| c_livekit_url := "wss://cfg";
                              default_timezone := "UTC" |}) |} |}.

(** A backend that is down, except that it issues a session with an
    empty token. *)
Definition odd_network : Network :=
  {| fetch_session := fun _ =>
       Resolved {| status := 201; json_body := Returned session_without_token |};
     fetch_summaries := fun _ =>
       Resolved {| status := 200; json_body := Threw Reference.syntax_error |};
     fetch_config := fun _ =>
       Resolved {| status := 404; json_body := Threw Reference.syntax_error |} |}.

Definition unreachable : Thrown := ErrorObject "TypeError" "Failed to fetch".

Definition down_network : Network :=
  {| fetch_session := fun _ => Rejected unreachable;
     fetch_summaries := fun _ => Rejected unreachable;
     fetch_config := fun _ => Rejected unreachable |}.

Definition valid_form : Form :=
  {| displayName := " Aida QA "; phoneNumber := "+15555550123 ";
     roomName := EmptyString |}.

(** Upper case on the letters a to z. *)
Definition upper_char (c : ascii) : ascii :=
  let n := N_of_ascii c in
  if ((97 <=? n) && (n <=? 122))%N then ascii_of_N (n - 32) else c.

Fixpoint upper (s : string) : string :=
  match s with
  | EmptyString => EmptyString
  | String c rest => String (upper_char c) (upper rest)
  end.

End MoreSamples.

(* ================================================================== *)
(** * Properties of the store *)

Module StoreFacts.
Import Store Statements.

(** C1. Whatever the store held before, after [setSession params] the
    transcript log and the tool-event log are empty, the summary is null,
    [connecting] is false, and [token], [identity], [roomName],
    [livekitUrl] and [callerPhone] are those of [params]. *)
Theorem setSession_resets (s : AppState) (params : SessionParams) :
  setSession params s =
  {| livekitUrl := Some (sp_livekitUrl params);
     token := Some (sp_token params);
     identity := Some (sp_identity params);
     roomName := Some (sp_roomName params);
     callerPhone := Some (sp_phone params);
     connecting := false;
     transcripts := [];
     toolEvents := [];
     summary := None |}.
Proof. reflexivity. Qed.

(** C10. [addTranscript] changes the transcript log only, [addToolEvent]
    the tool-event log only, and [setSummary] the summary only: every
    other field of the store is the one of the prior state. *)
Theorem append_and_summary_frame
  (s : AppState) (entry : TranscriptEntry) (event : ToolEvent)
  (record : option SummaryRecord) :
  addTranscript entry s =
    {| livekitUrl := livekitUrl s; token := token s; identity := identity s;
       roomName := roomName s; callerPhone := callerPhone s;
       connecting := connecting s;
       transcripts := transcripts s ++ [entry];
       toolEvents := toolEvents s; summary := summary s |}
  /\ addToolEvent event s =
    {| livekitUrl := livekitUrl s; token := token s; identity := identity s;
       roomName := roomName s; callerPhone := callerPhone s;
       connecting := connecting s;
       transcripts := transcripts s;
       toolEvents := toolEvents s ++ [event]; summary := summary s |}
  /\ setSummary record s =
    {| livekitUrl := livekitUrl s; token := token s; identity := identity s;
       roomName := roomName s; callerPhone := callerPhone s;
       connecting := connecting s;
       transcripts := transcripts s;
       toolEvents := toolEvents s; summary := record |}.
Proof. repeat split. Qed.

Lemma dispatch_keeps_token_needs_url (a : Action) (s : AppState) :
  token_needs_url s = true -> token_needs_url (dispatch a s) = true.
Proof.
  unfold token_needs_url.
  destruct a; cbn; try exact (fun H => H); try reflexivity.
  intros _. apply implb_true_r.
Qed.

Lemma run_keeps_token_needs_url (acts : list Action) :
  forall s, token_needs_url s = true -> token_needs_url (run acts s) = true.
Proof.
  induction acts as [|a acts IH]; intros s Hs.
  - exact Hs.
  - cbn. apply IH. now apply dispatch_keeps_token_needs_url.
Qed.

(** C4, as the code has it.  In every state reached from the initial one
    by the store's operations, the credential is present only if the
    connection URL is. *)
Theorem reachable_token_needs_url (acts : list Action) :
  token_needs_url (run acts initial) = true.
Proof. now apply run_keeps_token_needs_url. Qed.

(** C4, as stated, fails: [setLivekitUrl] alone gives a URL without a
    credential, and [clearSession] after [setSession] drops the credential
    and keeps the URL. *)
Lemma url_without_token :
  both_or_neither (run [SetLivekitUrl "wss://x"] initial) = false
  /\ both_or_neither
       (run [SetSession (mkSessionParams "t1" "id1" "r1" "wss://x" "+15555550123");
             ClearSession] initial) = false.
Proof. split; reflexivity. Qed.

End StoreFacts.

(* ================================================================== *)
(** * Properties of the bridge *)

Module BridgeFacts.
Import Bridge Statements.

Ltac run_handler :=
  unfold handleData, handleTranscription, bind, try_catch, lift, log,
    update_store, ret, with_store, logged; cbn.

Lemma handleData_rejected_topic platform env payload topic w :
  topic_accepted topic = false ->
  handleData platform env payload topic w = (Returned tt, w).
Proof. intros H. unfold handleData. now rewrite H. Qed.

Lemma handleData_unparsable platform env payload topic e w :
  topic_accepted topic = true ->
  JSON_parse platform (TextDecoder_decode platform payload) = Threw e ->
  handleData platform env payload topic w
  = (Returned tt, logged [debug_line; warn_line] w).
Proof.
  intros Ht Hp. run_handler. rewrite Ht, Hp. cbn.
  now rewrite <- app_assoc.
Qed.

Lemma handleData_transcript platform env payload topic members w :
  topic_accepted topic = true ->
  JSON_parse platform (TextDecoder_decode platform payload) = Returned (JObj members) ->
  lookup_member "type" members = JStr "transcript" ->
  handleData platform env payload topic w
  = (Returned tt,
     with_store (Store.addTranscript (transcript_of env members) (store w))
                (logged [debug_line] w)).
Proof.
  intros Ht Hp Hty. run_handler. rewrite Ht, Hp. cbn. rewrite Hty. reflexivity.
Qed.

Lemma handleData_tool platform env payload topic members w :
  topic_accepted topic = true ->
  JSON_parse platform (TextDecoder_decode platform payload) = Returned (JObj members) ->
  lookup_member "type" members = JStr "tool" ->
  handleData platform env payload topic w
  = (Returned tt,
     with_store (Store.addToolEvent (tool_of env members) (store w))
                (logged [debug_line] w)).
Proof.
  intros Ht Hp Hty. run_handler. rewrite Ht, Hp. cbn. rewrite Hty. reflexivity.
Qed.

Lemma handleTranscription_no_text room env segment w :
  segment_text segment = None ->
  handleTranscription room env segment w = (Returned tt, w).
Proof.
  intros H. unfold handleTranscription.
  destruct segment as [seg|]; [rewrite H|]; reflexivity.
Qed.

(** C6. A payload whose topic is absent or does not begin with ["app."]
    changes nothing, whatever its bytes are: the handler returns and the
    world (the store included) is the one it started in. *)
Theorem handleData_ignores_other_topics
  platform env (payload : list byte) (topic : option string) (w : World) :
  (forall t, topic = Some t -> String.prefix "app." t = false) ->
  handleData platform env payload topic w = (Returned tt, w).
Proof.
  intros H. apply handleData_rejected_topic.
  destruct topic as [t|]; [exact (H t eq_refl) | reflexivity].
Qed.

(** C5. A payload whose decoded text [JSON.parse] rejects never makes the
    handler throw and never changes the store: on an accepted topic the
    only effect is the debug line and the warning on the console, on any
    other topic there is no effect at all. *)
Theorem handleData_swallows_malformed
  platform env (payload : list byte) (topic : option string) (e : Thrown)
  (w : World) :
  JSON_parse platform (TextDecoder_decode platform payload) = Threw e ->
  handleData platform env payload topic w
  = (Returned tt,
     if topic_accepted topic then logged [debug_line; warn_line] w else w)
  /\ store (snd (handleData platform env payload topic w)) = store w.
Proof.
  intros Hp. destruct (topic_accepted topic) eqn:Ht.
  - rewrite (@handleData_unparsable platform env payload topic e w Ht Hp).
    now split.
  - rewrite (@handleData_rejected_topic platform env payload topic w Ht).
    now split.
Qed.

(** C7. A transcription segment that is missing, or whose text is missing
    or empty, leaves the world as it was; a data message on an ["app."]
    topic whose JSON object has [type] ["transcript"] and a text that is
    empty, missing or null still appends one transcript entry, with the
    empty string as its text, and leaves the tool-event log alone. *)
Theorem empty_text_asymmetry
  platform room env (segment : option TranscriptionSegment)
  (payload : list byte) (t : string) (members : list (string * JSValue))
  (w : World) :
  (forall seg, segment = Some seg ->
     text seg = None \/ text seg = Some EmptyString) ->
  String.prefix "app." t = true ->
  JSON_parse platform (TextDecoder_decode platform payload) = Returned (JObj members) ->
  lookup_member "type" members = JStr "transcript" ->
  (lookup_member "text" members = JStr EmptyString
   \/ nullish (lookup_member "text" members) = true) ->
  handleTranscription room env segment w = (Returned tt, w)
  /\ exists entry,
       handleData platform env payload (Some t) w
       = (Returned tt,
          with_store (Store.addTranscript entry (store w)) (logged [debug_line] w))
       /\ Types.text entry = JStr EmptyString
       /\ Store.transcripts (store (snd (handleData platform env payload (Some t) w)))
          = Store.transcripts (store w) ++ [entry]
       /\ Store.toolEvents (store (snd (handleData platform env payload (Some t) w)))
          = Store.toolEvents (store w).
Proof.
  intros Hseg Ht Hp Hty Htext. split.
  - apply handleTranscription_no_text.
    destruct segment as [seg|]; [|reflexivity].
    cbn. now destruct (Hseg seg eq_refl) as [-> | ->].
  - exists (transcript_of env members).
    rewrite (@handleData_transcript platform env payload (Some t) members w Ht Hp Hty).
    repeat split.
    cbn. unfold coalesce. destruct Htext as [-> | ->]; reflexivity.
Qed.

(** C8, as the code has it.  For a data message on an ["app."] topic whose
    JSON object has [type] ["transcript"], the handler appends one entry
    whose [speaker] is the message's [speaker] whenever that is neither
    missing nor null, whatever value it is, and ["assistant"] otherwise;
    [text], [timestamp] and [itemId] are the message's [text], [timestamp]
    and [item_id], replaced when missing or null by the empty string, the
    current time in seconds and a fresh UUID. *)
Theorem transcript_message_entry
  platform env (payload : list byte) (t : string)
  (members : list (string * JSValue)) (w : World) :
  String.prefix "app." t = true ->
  JSON_parse platform (TextDecoder_decode platform payload) = Returned (JObj members) ->
  lookup_member "type" members = JStr "transcript" ->
  exists entry,
    handleData platform env payload (Some t) w
    = (Returned tt,
       with_store (Store.addTranscript entry (store w)) (logged [debug_line] w))
    /\ Store.transcripts (store (snd (handleData platform env payload (Some t) w)))
       = Store.transcripts (store w) ++ [entry]
    /\ speaker entry
       = (let v := lookup_member "speaker" members in
          if nullish v then JStr "assistant" else v)
    /\ Types.text entry
       = (let v := lookup_member "text" members in
          if nullish v then JStr EmptyString else v)
    /\ timestamp entry
       = (let v := lookup_member "timestamp" members in
          if nullish v then JNum (now_seconds env) else v)
    /\ itemId entry
       = (let v := lookup_member "item_id" members in
          if nullish v then JStr (randomUUID env) else v)
    /\ (is_speaker (lookup_member "speaker" members) = true ->
        speaker entry = lookup_member "speaker" members).
Proof.
  intros Ht Hp Hty.
  exists (transcript_of env members).
  rewrite (@handleData_transcript platform env payload (Some t) members w Ht Hp Hty).
  repeat split.
  cbn. unfold coalesce.
  destruct (lookup_member "speaker" members); cbn; intros H;
    try discriminate; reflexivity.
Qed.

(** *** Runs of events *)

Lemma deliver_valid platform room ev :
  valid platform ev = true ->
  exists ts tls,
    List.length ts + List.length tls = 1
    /\ forall w, exists w',
         deliver platform room ev w = (Returned tt, w') /\ appends ts tls w w'.
Proof.
  destruct ev as [env [segment | payload topic]]; unfold valid; cbn.
  - destruct segment as [[[[|c s]|] p st i]|]; try discriminate. intros _.
    eexists [_], []. split; [reflexivity|]. intros w. eexists. split.
    + reflexivity.
    + split; cbn; [reflexivity | now rewrite app_nil_r].
  - intros H. apply andb_true_iff in H as [Ht Hv].
    assert (Hacc : topic_accepted topic = true) by exact Ht.
    unfold transcript_or_tool in Hv.
    destruct (JSON_parse platform (TextDecoder_decode platform payload))
      as [[ | | | | | |members]|] eqn:Hp; try discriminate.
    apply orb_true_iff in Hv.
    destruct (lookup_member "type" members) eqn:Hty;
      try (destruct Hv; discriminate).
    cbn in Hv. destruct Hv as [Hs | Hs]; apply String.eqb_eq in Hs; subst s.
    + exists [transcript_of env members], []. split; [reflexivity|].
      intros w. eexists. split.
      * exact (@handleData_transcript platform env payload topic members w Hacc Hp Hty).
      * split; cbn; [reflexivity | now rewrite app_nil_r].
    + exists [], [tool_of env members]. split; [reflexivity|].
      intros w. eexists. split.
      * exact (@handleData_tool platform env payload topic members w Hacc Hp Hty).
      * split; cbn; [now rewrite app_nil_r | reflexivity].
Qed.

(** A valid event appends to any world what it appends to a fresh one. *)
Lemma deliver_valid_contribution platform room ev :
  valid platform ev = true ->
  List.length (fst (contribution platform room ev))
  + List.length (snd (contribution platform room ev)) = 1
  /\ forall w, exists w',
       deliver platform room ev w = (Returned tt, w')
       /\ appends (fst (contribution platform room ev))
                  (snd (contribution platform room ev)) w w'.
Proof.
  intros Hv. destruct (deliver_valid platform room ev Hv) as (ts & tls & Hlen & Hall).
  assert (Hc : contribution platform room ev = (ts, tls)).
  { unfold contribution. destruct (Hall initial_world) as (w' & -> & Hts & Htls).
    cbn in *. now rewrite Hts, Htls. }
  rewrite Hc. now split.
Qed.

(** What each kind of valid event contributes. *)
Lemma contribution_of_segment platform room env (seg : TranscriptionSegment)
  (c : ascii) (rest : string) :
  text seg = Some (String c rest) ->
  contribution platform room (env, TranscriptionReceived (Some seg))
  = ([ {| speaker := if from_local room seg then JStr "user" else JStr "assistant";
          Types.text := JStr (String c rest);
          timestamp := JNum (match startTime seg with
                             | Some st => st
                             | None => now_seconds env
                             end);
          itemId := JStr (match id seg with
                          | Some i => i
                          | None => randomUUID env
                          end) |} ], []).
Proof.
  intros Ht. unfold contribution. cbn. unfold handleTranscription, segment_text.
  rewrite Ht. reflexivity.
Qed.

Lemma contribution_of_transcript platform room env payload topic members :
  topic_accepted topic = true ->
  JSON_parse platform (TextDecoder_decode platform payload) = Returned (JObj members) ->
  lookup_member "type" members = JStr "transcript" ->
  contribution platform room (env, DataReceived payload topic)
  = ([transcript_of env members], []).
Proof.
  intros Ht Hp Hty. unfold contribution. cbn [deliver].
  now rewrite (@handleData_transcript platform env payload topic members
                 initial_world Ht Hp Hty).
Qed.

Lemma contribution_of_tool platform room env payload topic members :
  topic_accepted topic = true ->
  JSON_parse platform (TextDecoder_decode platform payload) = Returned (JObj members) ->
  lookup_member "type" members = JStr "tool" ->
  contribution platform room (env, DataReceived payload topic)
  = ([], [tool_of env members]).
Proof.
  intros Ht Hp Hty. unfold contribution. cbn [deliver].
  now rewrite (@handleData_tool platform env payload topic members
                 initial_world Ht Hp Hty).
Qed.

Lemma deliver_all_valid platform room (evs : list (Env * Inbound)) :
  forallb (valid platform) evs = true ->
  forall w, exists w',
    deliver_all platform room evs w = (Returned tt, w')
    /\ appends (flat_map (fun ev => fst (contribution platform room ev)) evs)
               (flat_map (fun ev => snd (contribution platform room ev)) evs)
               w w'.
Proof.
  induction evs as [|ev evs IH]; intros Hv w.
  - exists w. split; [reflexivity|]. split; cbn; now rewrite app_nil_r.
  - cbn in Hv. apply andb_true_iff in Hv as [Hev Hrest].
    destruct (deliver_valid_contribution platform room ev Hev) as [_ Hstep].
    destruct (Hstep w) as (w1 & Hrun1 & Hts1 & Htls1).
    destruct (IH Hrest w1) as (w2 & Hrun2 & Hts2 & Htls2).
    exists w2. split.
    + cbn [deliver_all]. unfold bind. now rewrite Hrun1.
    + split; cbn [flat_map].
      * now rewrite Hts2, Hts1, app_assoc.
      * now rewrite Htls2, Htls1, app_assoc.
Qed.

Lemma contributions_count platform room (evs : list (Env * Inbound)) :
  forallb (valid platform) evs = true ->
  List.length (flat_map (fun ev => fst (contribution platform room ev)) evs)
  + List.length (flat_map (fun ev => snd (contribution platform room ev)) evs)
  = List.length evs.
Proof.
  induction evs as [|ev evs IH]; intros Hv; [reflexivity|].
  cbn in Hv. apply andb_true_iff in Hv as [Hev Hrest].
  destruct (deliver_valid_contribution platform room ev Hev) as [Hone _].
  cbn [flat_map List.length]. rewrite !length_app. specialize (IH Hrest). lia.
Qed.

(** C2. Delivering N valid events, one after the other, never throws;
    each event contributes exactly one entry, to one of the two logs; the
    transcript log afterwards is the log before followed by the transcript
    entries of the events in delivery order, and likewise the tool-event
    log, so that what was in the logs stays where it was and the two logs
    together have grown by exactly N entries. *)
Theorem valid_events_append_in_order
  platform room (evs : list (Env * Inbound)) (w : World) :
  forallb (valid platform) evs = true ->
  let w' := snd (deliver_all platform room evs w) in
  fst (deliver_all platform room evs w) = Returned tt
  /\ Forall (fun ev =>
       List.length (fst (contribution platform room ev))
       + List.length (snd (contribution platform room ev)) = 1) evs
  /\ Store.transcripts (store w')
     = Store.transcripts (store w)
       ++ flat_map (fun ev => fst (contribution platform room ev)) evs
  /\ Store.toolEvents (store w')
     = Store.toolEvents (store w)
       ++ flat_map (fun ev => snd (contribution platform room ev)) evs
  /\ List.length (Store.transcripts (store w'))
     + List.length (Store.toolEvents (store w'))
     = List.length (Store.transcripts (store w))
       + List.length (Store.toolEvents (store w)) + List.length evs.
Proof.
  intros Hv w'.
  destruct (deliver_all_valid platform room evs Hv w) as (w2 & Hrun & Hts & Htls).
  subst w'. rewrite Hrun. cbn [fst snd].
  split; [reflexivity|]. split.
  - apply Forall_forall. intros ev Hin.
    rewrite forallb_forall in Hv.
    exact (proj1 (deliver_valid_contribution platform room ev (Hv ev Hin))).
  - split; [exact Hts|]. split; [exact Htls|].
    rewrite Hts, Htls, !length_app.
    pose proof (contributions_count platform room evs Hv). lia.
Qed.

End BridgeFacts.


(* ================================================================== *)
(** * Properties of the API client *)

Module ApiFacts.
Import Api Statements.

Lemma apiFetch_settles platform T (fetch : Request -> FetchOutcome T) path options w :
  exists lines,
    apiFetch platform fetch path options w
    = (settle (fetch (request_of platform path options)), logged lines w).
Proof.
  unfold apiFetch, bind, try_catch, await_fetch, log, throw, ret, lift, settle,
    logged.
  destruct (fetch (request_of platform path options)) as [e|r]; cbn.
  - eexists. rewrite <- app_assoc. reflexivity.
  - destruct (ok r); cbn.
    + destruct (json_body r); cbn; eexists; rewrite <- ?app_assoc; reflexivity.
    + eexists. rewrite <- !app_assoc. reflexivity.
Qed.

Lemma substring_all (s : string) : substring 0 (String.length s) s = s.
Proof. induction s as [|c s IH]; cbn; [reflexivity | now rewrite IH]. Qed.

Lemma carried_status_error (n : N) : carried_status (status_error n) = Some n.
Proof.
  unfold carried_status, status_error. cbn.
  rewrite Nat.sub_0_r, substring_all. unfold decimal.
  replace (String.prefix EmptyString (NilZero.string_of_uint (N.to_uint n)))
    with true by now destruct (NilZero.string_of_uint (N.to_uint n)).
  rewrite NilZero.usu.
  - cbn. now rewrite DecimalN.Unsigned.of_to.
  - destruct n; cbn; [discriminate | apply DecimalPos.Unsigned.to_uint_nonnil].
Qed.

(** C9. When the response to the session request has a status outside
    200..299, [requestSession] throws an [Error] whose message is
    ["API error "] followed by the status in decimal, from which the
    status is read back; it returns no session, and the store is left as
    it was. *)
Theorem requestSession_fails_on_bad_status
  platform network (payload : SessionPayload) (r : Response SessionResponse)
  (w : World) :
  fetch_session network
    (request_of platform "/api/session" (session_options payload)) = Resolved r ->
  ~ (200 <= status r <= 299)%N ->
  fst (requestSession platform network payload w)
  = Threw (ErrorObject "Error" ("API error " ++ decimal (status r)))
  /\ carried_status (ErrorObject "Error" ("API error " ++ decimal (status r)))
     = Some (status r)
  /\ (forall session,
        fst (requestSession platform network payload w) <> Returned session)
  /\ store (snd (requestSession platform network payload w)) = store w.
Proof.
  intros Hf Hs.
  assert (Hok : ok r = false).
  { unfold ok. apply andb_false_iff.
    destruct (N.leb_spec 200 (status r)); [right | now left].
    apply N.leb_gt. lia. }
  unfold requestSession.
  destruct (apiFetch_settles platform (fetch_session network) "/api/session"
              (session_options payload) w) as [lines ->].
  rewrite Hf. cbn [settle fst snd]. rewrite Hok.
  repeat split.
  - apply carried_status_error.
  - discriminate.
Qed.

End ApiFacts.

(* ================================================================== *)
(** * Properties of the connect flow *)

Module AppFacts.
Import Api App Statements ApiFacts.

Lemma loadLatestSummary_runs platform network (phone : string) (w : World) :
  truthy phone = true ->
  exists lines,
    loadLatestSummary platform network phone w
    = (Returned tt,
       {| store := match summaries_outcome platform network phone with
                   | Returned records => Store.setSummary (latest records) (store w)
                   | Threw _ => store w
                   end;
          console := console w ++ lines;
          error := error w;
          summaryLoading := false |}).
Proof.
  intros Hp. unfold loadLatestSummary, fetchSummaries, summaries_outcome.
  rewrite Hp. cbn [negb].
  unfold bind at 1 2. cbn [setSummaryLoading log].
  unfold try_finally, try_catch, bind.
  match goal with
  | |- context [apiFetch platform ?f ?p ?o ?w0] =>
      destruct (apiFetch_settles platform f p o w0) as [lines ->]
  end.
  destruct (settle _) as [records|e]; cbn; eexists; unfold latest;
    rewrite <- ?app_assoc; reflexivity.
Qed.

Lemma handleConnect_invalid platform network (form : Form) (w : World) :
  truthy (String_trim platform (displayName form)) = false
  \/ truthy (String_trim platform (phoneNumber form)) = false ->
  handleConnect platform network form w
  = (Returned tt,
     {| store := store w; console := console w;
        error := Some "Display name and phone are required";
        summaryLoading := summaryLoading w |}).
Proof.
  intros H. unfold handleConnect.
  replace (negb (truthy (String_trim platform (displayName form)))
           || negb (truthy (String_trim platform (phoneNumber form)))) with true.
  - reflexivity.
  - symmetry. apply orb_true_iff. destruct H as [-> | ->]; auto.
Qed.

Lemma handleConnect_valid platform network (form : Form) (w : World) :
  truthy (String_trim platform (displayName form)) = true ->
  truthy (String_trim platform (phoneNumber form)) = true ->
  exists lines,
    handleConnect platform network form w
    = (Returned tt,
       match session_outcome platform network form with
       | Threw e =>
           {| store := Store.clearSession (Store.beginConnect (store w));
              console := console w ++ lines;
              error := Some (message_of e);
              summaryLoading := summaryLoading w |}
       | Returned session =>
           {| store :=
                match summaries_outcome platform network
                        (String_trim platform (phoneNumber form)) with
                | Returned records =>
                    Store.setSummary (latest records)
                      (Store.setSession (params_of platform form session)
                         (Store.beginConnect (store w)))
                | Threw _ =>
                    Store.setSession (params_of platform form session)
                      (Store.beginConnect (store w))
                end;
              console := console w ++ lines;
              error := None;
              summaryLoading := false |}
       end).
Proof.
  intros Hd Hp. unfold handleConnect. rewrite Hd, Hp. cbn [negb orb].
  unfold bind at 1 2 3. cbn [setError update_store log].
  unfold try_catch, bind, requestSession, session_outcome.
  match goal with
  | |- context [apiFetch platform ?f ?p ?o ?w0] =>
      destruct (apiFetch_settles platform f p o w0) as [lines ->]
  end.
  fold (payload_of platform form).
  destruct (settle _) as [session|e].
  - cbn [update_store log logged store console error summaryLoading].
    match goal with
    | |- context [loadLatestSummary platform network ?ph ?w0] =>
        destruct (loadLatestSummary_runs platform network ph w0 Hp) as [lines' ->]
    end.
    cbn [store console error summaryLoading].
    eexists. rewrite <- !app_assoc. reflexivity.
  - cbn. eexists. rewrite <- !app_assoc. reflexivity.
Qed.

(** C3, as the code has it.  [handleConnect] always returns.  When the
    trimmed display name or phone is empty it sets the error message and
    leaves the store untouched.  Otherwise, when the session request fails
    it sets the error to the failure's message and applies [clearSession];
    when the session request succeeds it clears the error and applies
    [setSession], and a summary request that fails afterwards changes
    neither the session nor the error: the store is then exactly the one
    [setSession] produced. *)
Theorem handleConnect_outcomes platform network (form : Form) (w : World) :
  let name := String_trim platform (displayName form) in
  let phone := String_trim platform (phoneNumber form) in
  let w' := snd (handleConnect platform network form w) in
  fst (handleConnect platform network form w) = Returned tt
  /\ (truthy name = false \/ truthy phone = false ->
      store w' = store w
      /\ error w' = Some "Display name and phone are required")
  /\ (truthy name = true -> truthy phone = true ->
      forall e, session_outcome platform network form = Threw e ->
      store w' = Store.clearSession (Store.beginConnect (store w))
      /\ error w' = Some (message_of e))
  /\ (truthy name = true -> truthy phone = true ->
      forall session, session_outcome platform network form = Returned session ->
      error w' = None
      /\ (forall e, summaries_outcome platform network phone = Threw e ->
          store w' = Store.setSession (params_of platform form session)
                       (Store.beginConnect (store w)))
      /\ (forall records, summaries_outcome platform network phone = Returned records ->
          store w' = Store.setSummary (latest records)
                       (Store.setSession (params_of platform form session)
                          (Store.beginConnect (store w))))).
Proof.
  intros name phone w'. subst name phone w'.
  destruct (truthy (String_trim platform (displayName form))) eqn:Hd;
    [destruct (truthy (String_trim platform (phoneNumber form))) eqn:Hp|].
  - destruct (handleConnect_valid platform network form w Hd Hp) as [lines ->].
    cbn [fst snd]. split.
    + reflexivity.
    + split; [intros [H|H]; discriminate|]. split.
      * intros _ _ e ->. now split.
      * intros _ _ session ->. cbn [store error]. split; [reflexivity|].
        split; [intros e -> | intros records ->]; reflexivity.
  - rewrite (@handleConnect_invalid platform network form w (or_intror Hp)).
    cbn [fst snd store error]. split; [reflexivity|]. split; [now split|].
    split; intros; discriminate.
  - rewrite (@handleConnect_invalid platform network form w (or_introl Hd)).
    cbn [fst snd store error]. split; [reflexivity|]. split; [now split|].
    split; intros; discriminate.
Qed.

End AppFacts.

(* ================================================================== *)
(** * The theorems at concrete inputs *)

Module Scenarios.
Import Bridge Api App Statements Samples BridgeFacts ApiFacts AppFacts.

(** The tool message of the timeline topic, read by the handler. *)
Example tool_message_logged :
  Store.toolEvents
    (store (snd (handleData Reference.platform env0 tool_message
                   (Some "app.timeline") initial_world)))
  = [ {| Types.name := JStr "book_appointment";
         arguments := JObj [("slot", JStr "10:00")];
         output := JUndefined;
         tool_timestamp := JNum (1700000000000 # 1000);
         callId := JStr "c1" |} ].
Proof. vm_compute. reflexivity. Qed.


(** Three valid events on a call in progress: the two logs gain three
    entries between them. *)
Lemma valid_events_append_in_order_witness :
  forallb (valid Reference.platform) three_events = true
  /\ fst (deliver_all Reference.platform room0 three_events busy_world) = Returned tt
  /\ List.length (Store.transcripts
       (store (snd (deliver_all Reference.platform room0 three_events busy_world))))
     + List.length (Store.toolEvents
       (store (snd (deliver_all Reference.platform room0 three_events busy_world))))
     = 1 + 0 + 3.
Proof.
  assert (Hv : forallb (valid Reference.platform) three_events = true)
    by (vm_compute; reflexivity).
  split; [exact Hv|].
  destruct (valid_events_append_in_order Reference.platform room0 three_events
              busy_world Hv) as (Hret & _ & _ & _ & Hlen).
  split; [exact Hret | exact Hlen].
Defined.

Lemma handleData_swallows_malformed_witness :
  JSON_parse Reference.platform
    (TextDecoder_decode Reference.platform broken_message)
  = Threw Reference.syntax_error
  /\ handleData Reference.platform env0 broken_message (Some "app.transcript")
       busy_world
     = (Returned tt, logged [debug_line; warn_line] busy_world)
  /\ store (snd (handleData Reference.platform env0 broken_message
                   (Some "app.transcript") busy_world))
     = store busy_world.
Proof.
  assert (Hp : JSON_parse Reference.platform
                 (TextDecoder_decode Reference.platform broken_message)
               = Threw Reference.syntax_error) by (vm_compute; reflexivity).
  split; [exact Hp|].
  exact (@handleData_swallows_malformed Reference.platform env0 broken_message
           (Some "app.transcript") Reference.syntax_error busy_world Hp).
Defined.

Lemma handleData_ignores_other_topics_witness :
  String.prefix "app." "other.thing" = false
  /\ handleData Reference.platform env0 transcript_message (Some "other.thing")
       busy_world
     = (Returned tt, busy_world).
Proof.
  split; [reflexivity|].
  apply handleData_ignores_other_topics.
  intros t [= <-]. reflexivity.
Defined.

Lemma empty_text_asymmetry_witness :
  handleTranscription room0 env0 (Some silent_segment) busy_world
  = (Returned tt, busy_world)
  /\ exists entry,
       Types.text entry = JStr EmptyString
       /\ Store.transcripts
            (store (snd (handleData Reference.platform env0 empty_transcript_message
                           (Some "app.transcript") busy_world)))
          = Store.transcripts (store busy_world) ++ [entry].
Proof.
  assert (Hp : JSON_parse Reference.platform
                 (TextDecoder_decode Reference.platform empty_transcript_message)
               = Returned (JObj [("type", JStr "transcript");
                                 ("text", JStr EmptyString)]))
    by (vm_compute; reflexivity).
  assert (Hseg : forall seg, Some silent_segment = Some seg ->
                 text seg = None \/ text seg = Some EmptyString)
    by (intros seg [= <-]; right; reflexivity).
  destruct (@empty_text_asymmetry Reference.platform room0 env0
              (Some silent_segment) empty_transcript_message "app.transcript"
              _ busy_world Hseg eq_refl Hp eq_refl (or_introl eq_refl))
    as (Ha & entry & _ & Htext & Hlog & _).
  split; [exact Ha|]. exists entry. split; [exact Htext | exact Hlog].
Defined.

Lemma transcript_message_entry_witness :
  exists entry,
    Store.transcripts
      (store (snd (handleData Reference.platform env0 transcript_message
                     (Some "app.transcript") busy_world)))
    = Store.transcripts (store busy_world) ++ [entry]
    /\ speaker entry = JStr "user"
    /\ itemId entry = JStr "m1".
Proof.
  assert (Hp : JSON_parse Reference.platform
                 (TextDecoder_decode Reference.platform transcript_message)
               = Returned (JObj [("type", JStr "transcript");
                                 ("speaker", JStr "user");
                                 ("text", JStr "hi");
                                 ("timestamp", JNum (125 # 10));
                                 ("item_id", JStr "m1")]))
    by (vm_compute; reflexivity).
  destruct (@transcript_message_entry Reference.platform env0 transcript_message
              "app.transcript" _ busy_world eq_refl Hp eq_refl)
    as (entry & _ & Hlog & Hsp & _ & _ & Hid & _).
  exists entry. split; [exact Hlog|]. split; [exact Hsp | exact Hid].
Defined.

(** C8, as stated, fails: a [speaker] outside the three declared values
    is stored as it came, not replaced by ["assistant"]. *)
Lemma invalid_speaker_kept :
  is_speaker (JStr "robot") = false
  /\ map speaker
       (Store.transcripts
          (store (snd (handleData Reference.platform env0 robot_message
                         (Some "app.transcript") initial_world))))
     = [JStr "robot"]
  /\ JStr "robot" <> JStr "assistant"
  /\ map TranscriptEntry_typed
       (Store.transcripts
          (store (snd (handleData Reference.platform env0 robot_message
                         (Some "app.transcript") initial_world))))
     = [false].
Proof.
  split; [reflexivity|]. split; [vm_compute; reflexivity|].
  split; [discriminate | vm_compute; reflexivity].
Qed.

Lemma requestSession_fails_on_bad_status_witness :
  fst (requestSession Reference.platform failing_network payload0 initial_world)
  = Threw (ErrorObject "Error" "API error 500")
  /\ carried_status (ErrorObject "Error" "API error 500") = Some 500%N.
Proof.
  assert (Hs : ~ (200 <= 500 <= 299)%N) by lia.
  destruct (@requestSession_fails_on_bad_status Reference.platform failing_network
              payload0 _ initial_world eq_refl Hs)
    as (Hthrow & Hcarried & _).
  split; [exact Hthrow | exact Hcarried].
Defined.

(** C3, as stated, fails: when the summary request fails after the session
    was issued, the session stays in the store and no error is shown; and
    a form that fails validation does not reset a store that holds a
    session. *)
Lemma summary_failure_keeps_session :
  summaries_outcome Reference.platform summaryless_network "+15555550123"
  = Threw fetch_failed
  /\ (let w' := snd (handleConnect Reference.platform summaryless_network form0
                      initial_world) in
      Store.token (store w') = Some "t1"
      /\ Store.livekitUrl (store w') = Some "wss://x"
      /\ error w' = None)
  /\ (let w' := snd (handleConnect Reference.platform summaryless_network blank_form
                      busy_world) in
      Store.token (store w') = Some "t1").
Proof. repeat split. Qed.

Lemma handleConnect_outcomes_witness :
  (let w' := snd (handleConnect Reference.platform failing_network form0
                    busy_world) in
   store w' = Store.clearSession (Store.beginConnect (store busy_world))
   /\ error w' = Some "API error 500")
  /\ (let w' := snd (handleConnect Reference.platform summaryless_network form0
                       initial_world) in
      error w' = None
      /\ store w' = Store.setSession
                      (params_of Reference.platform form0 session1)
                      (Store.beginConnect Store.initial))
  /\ (let w' := snd (handleConnect Reference.platform summaryless_network
                       blank_form busy_world) in
      store w' = store busy_world
      /\ error w' = Some "Display name and phone are required").
Proof.
  split; [|split].
  - destruct (handleConnect_outcomes Reference.platform failing_network form0
                busy_world) as (_ & _ & Hfail & _).
    exact (Hfail eq_refl eq_refl (status_error 500) eq_refl).
  - destruct (handleConnect_outcomes Reference.platform summaryless_network form0
                initial_world) as (_ & _ & _ & Hok).
    destruct (Hok eq_refl eq_refl session1 eq_refl) as (Herr & Hsum & _).
    split; [exact Herr | exact (Hsum fetch_failed eq_refl)].
  - destruct (handleConnect_outcomes Reference.platform summaryless_network
                blank_form busy_world) as (_ & Hinvalid & _).
    exact (Hinvalid (or_introl eq_refl)).
Defined.

End Scenarios.

(* ================================================================== *)
(** * Further properties of the store *)

Module StoreMore.
Import Store Statements MoreStatements.

Lemma dispatch_keeps_coherent (a : Action) (s : AppState) :
  session_coherent s = true -> session_coherent (dispatch a s) = true.
Proof.
  unfold session_coherent. destruct a; cbn; try exact (fun H => H); reflexivity.
Qed.

(** X1. In every state reached from the initial one by the store's
    operations, [token], [identity], [roomName] and [callerPhone] are all
    present or all absent. *)
Theorem reachable_session_coherent (acts : list Action) :
  session_coherent (run acts initial) = true.
Proof.
  assert (H : forall s, session_coherent s = true ->
                        session_coherent (run acts s) = true).
  { induction acts as [|a acts IH]; intros s Hs; [exact Hs|].
    cbn. apply IH. now apply dispatch_keeps_coherent. }
  now apply H.
Qed.


(** X3. Through a run of operations none of which is [setSession] or
    [clearSession], the two logs only grow: each is the log before
    followed by the entries of the run's [addTranscript] (respectively
    [addToolEvent]) calls in order, and the four session fields are
    untouched. *)
Theorem logs_grow_without_reset (acts : list Action) (s : AppState) :
  forallb (fun a => negb (resets a)) acts = true ->
  transcripts (run acts s) = transcripts s ++ added_transcripts acts
  /\ toolEvents (run acts s) = toolEvents s ++ added_toolEvents acts
  /\ token (run acts s) = token s
  /\ identity (run acts s) = identity s
  /\ roomName (run acts s) = roomName s
  /\ callerPhone (run acts s) = callerPhone s.
Proof.
  revert s. induction acts as [|a acts IH]; intros s Hn.
  - cbn. now rewrite !app_nil_r.
  - cbn in Hn. apply andb_true_iff in Hn as [Ha Hrest].
    cbn [run fold_left]. fold (run acts (dispatch a s)).
    destruct (IH (dispatch a s) Hrest) as (Ht & Hl & H1 & H2 & H3 & H4).
    rewrite Ht, Hl, H1, H2, H3, H4.
    destruct a; try discriminate; cbn; rewrite <- ?app_assoc; repeat split.
Qed.

(** X4. The three session-scoped writes commute with one another: the
    order in which a transcript entry, a tool event and a summary reach
    the store does not matter for the resulting state. *)
Theorem session_writes_commute
  (entry : TranscriptEntry) (event : ToolEvent) (record : option SummaryRecord)
  (s : AppState) :
  addTranscript entry (addToolEvent event s)
  = addToolEvent event (addTranscript entry s)
  /\ setSummary record (addTranscript entry s)
     = addTranscript entry (setSummary record s)
  /\ setSummary record (addToolEvent event s)
     = addToolEvent event (setSummary record s).
Proof. repeat split. Qed.

End StoreMore.

(* ================================================================== *)
(** * Further properties of the bridge *)

Module BridgeMore.
Import Bridge Statements MoreStatements BridgeFacts.

Lemma extend_logs_nil (s : Store.AppState) : extend_logs [] [] s = s.
Proof. destruct s. unfold extend_logs. cbn. now rewrite !app_nil_r. Qed.

Lemma extend_logs_twice ts1 tls1 ts2 tls2 (s : Store.AppState) :
  extend_logs ts2 tls2 (extend_logs ts1 tls1 s)
  = extend_logs (ts1 ++ ts2) (tls1 ++ tls2) s.
Proof. unfold extend_logs. cbn. now rewrite !app_assoc. Qed.

Lemma addTranscript_extends entry (s : Store.AppState) :
  Store.addTranscript entry s = extend_logs [entry] [] s.
Proof. unfold extend_logs. cbn. now rewrite app_nil_r. Qed.

Lemma addToolEvent_extends event (s : Store.AppState) :
  Store.addToolEvent event s = extend_logs [] [event] s.
Proof. unfold extend_logs. cbn. now rewrite app_nil_r. Qed.

Lemma grown_nil (w : World) : grown [] [] [] w = w.
Proof. destruct w. unfold grown. cbn. now rewrite extend_logs_nil, app_nil_r. Qed.

Lemma logged_grown lines (w : World) : logged lines w = grown [] [] lines w.
Proof. unfold logged, grown. now rewrite extend_logs_nil. Qed.

Lemma handleData_unknown platform env payload topic v w :
  topic_accepted topic = true ->
  JSON_parse platform (TextDecoder_decode platform payload) = Returned v ->
  nullish v = false ->
  (forall members, v = JObj members ->
     strict_eq_string (lookup_member "type" members) "transcript" = false
     /\ strict_eq_string (lookup_member "type" members) "tool" = false) ->
  handleData platform env payload topic w = (Returned tt, logged [debug_line] w).
Proof.
  intros Ht Hp Hn Hty. run_handler. rewrite Ht, Hp. cbn.
  destruct v as [ | | b | q | s | items | members];
    try discriminate; try reflexivity.
  cbn. destruct (Hty members eq_refl) as [-> ->]. reflexivity.
Qed.

Lemma handleData_null platform env payload topic v w :
  topic_accepted topic = true ->
  JSON_parse platform (TextDecoder_decode platform payload) = Returned v ->
  nullish v = true ->
  handleData platform env payload topic w
  = (Returned tt, logged [debug_line; warn_line] w).
Proof.
  intros Ht Hp Hn. run_handler. rewrite Ht, Hp. cbn.
  destruct v; try discriminate; cbn; now rewrite <- app_assoc.
Qed.

Lemma handleData_grows platform env payload topic w :
  exists ts tls lines,
    handleData platform env payload topic w = (Returned tt, grown ts tls lines w)
    /\ List.length ts + List.length tls <= 1.
Proof.
  destruct (topic_accepted topic) eqn:Ht.
  2:{ exists [], [], []. rewrite grown_nil.
      split; [now apply handleData_rejected_topic | cbn; lia]. }
  destruct (JSON_parse platform (TextDecoder_decode platform payload))
    as [v|e] eqn:Hp.
  2:{ exists [], [], [debug_line; warn_line]. rewrite <- logged_grown.
      split; [now apply handleData_unparsable with (e := e) | cbn; lia]. }
  destruct (nullish v) eqn:Hn.
  { exists [], [], [debug_line; warn_line]. rewrite <- logged_grown.
    split; [now apply handleData_null with (v := v) | cbn; lia]. }
  destruct v as [ | | b | q | s | items | members]; try discriminate;
    try solve [exists [], [], [debug_line]; rewrite <- logged_grown;
               split; [eapply handleData_unknown; try eassumption;
                       try reflexivity; intros ? [=] | cbn; lia]].
  destruct (strict_eq_string (lookup_member "type" members) "transcript") eqn:E1;
    [|destruct (strict_eq_string (lookup_member "type" members) "tool") eqn:E2].
  - destruct (lookup_member "type" members) eqn:Hty; try discriminate.
    cbn in E1. apply String.eqb_eq in E1. subst s.
    exists [transcript_of env members], [], [debug_line]. split; [|cbn; lia].
    rewrite (@handleData_transcript platform env payload topic members w Ht Hp Hty).
    unfold with_store, logged, grown. cbn [store console error summaryLoading].
    now rewrite addTranscript_extends.
  - destruct (lookup_member "type" members) eqn:Hty; try discriminate.
    cbn in E2. apply String.eqb_eq in E2. subst s.
    exists [], [tool_of env members], [debug_line]. split; [|cbn; lia].
    rewrite (@handleData_tool platform env payload topic members w Ht Hp Hty).
    unfold with_store, logged, grown. cbn [store console error summaryLoading].
    now rewrite addToolEvent_extends.
  - exists [], [], [debug_line]. rewrite <- logged_grown. split; [|cbn; lia].
    apply handleData_unknown with (v := JObj members); try assumption.
    intros ms [= <-]. now split.
Qed.

Lemma handleTranscription_text room env (seg : TranscriptionSegment) c rest w :
  text seg = Some (String c rest) ->
  handleTranscription room env (Some seg) w
  = (Returned tt,
     with_store (Store.addTranscript (segment_entry room env seg (String c rest))
                   (store w))
                (logged [transcription_line] w)).
Proof.
  intros Ht. unfold handleTranscription, segment_text. rewrite Ht. reflexivity.
Qed.

Lemma handleTranscription_grows room env segment w :
  exists ts lines,
    handleTranscription room env segment w = (Returned tt, grown ts [] lines w)
    /\ List.length ts <= 1.
Proof.
  destruct (segment_text segment) eqn:Hs.
  - destruct segment as [seg|]; [|discriminate].
    unfold segment_text in Hs.
    destruct (text seg) as [[|c rest]|] eqn:Ht; try discriminate.
    exists [segment_entry room env seg (String c rest)], [transcription_line].
    split; [|cbn; lia].
    rewrite (@handleTranscription_text room env seg c rest w Ht).
    unfold with_store, logged, grown. cbn [store console error summaryLoading].
    now rewrite addTranscript_extends.
  - exists [], []. rewrite grown_nil. split; [|cbn; lia].
    now apply handleTranscription_no_text.
Qed.

Lemma grown_twice ts1 tls1 l1 ts2 tls2 l2 (w : World) :
  grown ts2 tls2 l2 (grown ts1 tls1 l1 w)
  = grown (ts1 ++ ts2) (tls1 ++ tls2) (l1 ++ l2) w.
Proof.
  unfold grown. cbn [store console error summaryLoading].
  now rewrite extend_logs_twice, app_assoc.
Qed.

Lemma deliver_all_grows platform room (evs : list (Env * Inbound)) :
  forall w, exists ts tls lines,
    deliver_all platform room evs w = (Returned tt, grown ts tls lines w)
    /\ List.length ts + List.length tls <= List.length evs.
Proof.
  induction evs as [|[env ev] evs IH]; intros w.
  - exists [], [], []. rewrite grown_nil. split; [reflexivity | cbn; lia].
  - assert (Hstep : exists ts tls lines,
              deliver platform room (env, ev) w = (Returned tt, grown ts tls lines w)
              /\ List.length ts + List.length tls <= 1).
    { destruct ev as [segment | payload topic]; cbn [deliver].
      - destruct (handleTranscription_grows room env segment w)
          as (ts & lines & H & Hl).
        exists ts, [], lines. split; [exact H | cbn; lia].
      - apply handleData_grows. }
    destruct Hstep as (ts1 & tls1 & l1 & H1 & Hl1).
    destruct (IH (grown ts1 tls1 l1 w)) as (ts2 & tls2 & l2 & H2 & Hl2).
    exists (ts1 ++ ts2), (tls1 ++ tls2), (l1 ++ l2). split.
    + cbn [deliver_all]. unfold bind. rewrite H1, H2. now rewrite grown_twice.
    + rewrite !length_app. cbn [List.length]. lia.
Qed.

(** X5. Whatever events are delivered, valid or not, the bridge never
    throws and never does anything to the store but append: the store
    afterwards is the store before with entries added at the end of the
    two logs, at most one entry per event, and the [App] state cells are
    untouched. *)
Theorem bridge_only_appends platform room (evs : list (Env * Inbound)) (w : World) :
  fst (deliver_all platform room evs w) = Returned tt
  /\ error (snd (deliver_all platform room evs w)) = error w
  /\ summaryLoading (snd (deliver_all platform room evs w)) = summaryLoading w
  /\ exists ts tls,
       store (snd (deliver_all platform room evs w)) = extend_logs ts tls (store w)
       /\ List.length ts + List.length tls <= List.length evs.
Proof.
  destruct (deliver_all_grows platform room evs w) as (ts & tls & lines & -> & Hl).
  cbn. repeat split. now exists ts, tls.
Qed.

(** X6. A payload on an ["app."] topic that parses to anything but [null]
    and is not an object whose [type] is ["transcript"] or ["tool"] (a
    number, a string, an array, an object with another or no [type]) is
    dropped without a warning: the only effect is the debug line. *)
Theorem handleData_drops_unknown_silently
  platform env (payload : list byte) (t : string) (v : JSValue) (w : World) :
  String.prefix "app." t = true ->
  JSON_parse platform (TextDecoder_decode platform payload) = Returned v ->
  v <> JNull -> v <> JUndefined ->
  (forall members, v = JObj members ->
     lookup_member "type" members <> JStr "transcript"
     /\ lookup_member "type" members <> JStr "tool") ->
  handleData platform env payload (Some t) w = (Returned tt, logged [debug_line] w).
Proof.
  intros Ht Hp Hn Hu Hty.
  apply handleData_unknown with (v := v); try assumption.
  - destruct v; try reflexivity; congruence.
  - intros members ->. destruct (Hty members eq_refl) as [H1 H2].
    destruct (lookup_member "type" members) as [ | | | | s | | ];
      try (split; reflexivity).
    cbn. split; apply String.eqb_neq; congruence.
Qed.

(** X7. A payload on an ["app."] topic whose text is the JSON value
    [null] is well-formed JSON, yet reading its [type] throws inside the
    [try]: it is reported with the same warning as a parse failure and
    the store is unchanged. *)
Theorem handleData_null_is_reported
  platform env (payload : list byte) (t : string) (w : World) :
  String.prefix "app." t = true ->
  JSON_parse platform (TextDecoder_decode platform payload) = Returned JNull ->
  handleData platform env payload (Some t) w
  = (Returned tt, logged [debug_line; warn_line] w).
Proof.
  intros Ht Hp. now apply handleData_null with (v := JNull).
Qed.

(** X8. For a data message on an ["app."] topic whose JSON object has
    [type] ["tool"], the handler appends exactly one tool event and leaves
    the transcript log alone; the event's [name], [output] and [callId]
    are the message's [name], [output] and [call_id] as they are
    ([undefined] when missing: a message without a name is not rejected),
    [arguments] is replaced by the empty object and [timestamp] by the
    current time in seconds only when missing or null. *)
Theorem tool_message_event
  platform env (payload : list byte) (t : string)
  (members : list (string * JSValue)) (w : World) :
  String.prefix "app." t = true ->
  JSON_parse platform (TextDecoder_decode platform payload) = Returned (JObj members) ->
  lookup_member "type" members = JStr "tool" ->
  exists event,
    handleData platform env payload (Some t) w
    = (Returned tt,
       with_store (Store.addToolEvent event (store w)) (logged [debug_line] w))
    /\ Store.toolEvents (store (snd (handleData platform env payload (Some t) w)))
       = Store.toolEvents (store w) ++ [event]
    /\ Store.transcripts (store (snd (handleData platform env payload (Some t) w)))
       = Store.transcripts (store w)
    /\ Types.name event = lookup_member "name" members
    /\ arguments event
       = (let v := lookup_member "arguments" members in
          if nullish v then JObj [] else v)
    /\ output event = lookup_member "output" members
    /\ tool_timestamp event
       = (let v := lookup_member "timestamp" members in
          if nullish v then JNum (now_seconds env) else v)
    /\ callId event = lookup_member "call_id" members.
Proof.
  intros Ht Hp Hty. exists (tool_of env members).
  rewrite (@handleData_tool platform env payload (Some t) members w Ht Hp Hty).
  repeat split.
Qed.

(** X9. A transcription segment with a text that is not empty appends
    exactly one entry.  Its speaker is ["user"] exactly when the segment
    has a participant whose identity is the local participant's, and
    ["assistant"] otherwise (never ["system"]); its text is the segment's
    text, its timestamp and id are the segment's when it has them, and the
    entry has the declared type of a transcript entry. *)
Theorem segment_entry_classified
  room env (seg : TranscriptionSegment) (c : ascii) (rest : string) (w : World) :
  text seg = Some (String c rest) ->
  exists entry,
    handleTranscription room env (Some seg) w
    = (Returned tt,
       with_store (Store.addTranscript entry (store w))
                  (logged [transcription_line] w))
    /\ (speaker entry = JStr "user" <->
        exists p, participant seg = Some p
                  /\ identity p = identity (localParticipant room))
    /\ (speaker entry <> JStr "user" -> speaker entry = JStr "assistant")
    /\ Types.text entry = JStr (String c rest)
    /\ (forall st, startTime seg = Some st -> timestamp entry = JNum st)
    /\ (forall i, id seg = Some i -> itemId entry = JStr i)
    /\ TranscriptEntry_typed entry = true.
Proof.
  intros Ht. exists (segment_entry room env seg (String c rest)).
  split; [now apply handleTranscription_text|].
  unfold segment_entry, from_local. cbn.
  split; [|split; [|split; [reflexivity|split; [|split]]]].
  - destruct (participant seg) as [p|].
    + destruct (String.eqb_spec (identity p) (identity (localParticipant room)))
        as [E|E]; split.
      * intros _. now exists p.
      * reflexivity.
      * discriminate.
      * intros (p' & Hp' & E'). injection Hp' as <-. contradiction.
    + split; [discriminate | intros (p & [=] & _)].
  - destruct (participant seg) as [p|]; [|reflexivity].
    destruct (String.eqb (identity p) (identity (localParticipant room)));
      [intros H; now contradict H | reflexivity].
  - now intros st ->.
  - now intros i ->.
  - unfold TranscriptEntry_typed. cbn.
    destruct (participant seg) as [p|]; [|reflexivity].
    destruct (String.eqb (identity p) (identity (localParticipant room)));
      reflexivity.
Qed.

Lemma coalesce_typed (ok : JSValue -> bool) (v d : JSValue) :
  ok d = true -> ok JNull = false -> ok JUndefined = false ->
  ok (coalesce v d) = missing_or ok v.
Proof.
  intros Hd Hn Hu. unfold coalesce, missing_or.
  destruct (nullish v) eqn:E; [exact Hd | reflexivity].
Qed.

(** X10. The entry appended for a [transcript] message has the declared
    type of a transcript entry exactly when each of [speaker], [text],
    [timestamp] and [item_id] is missing, null, or of its declared type
    (one of the three speakers, a string, a number, a string); the
    message is stored either way. *)
Theorem transcript_entry_typed_iff
  platform env (payload : list byte) (t : string)
  (members : list (string * JSValue)) (w : World) :
  String.prefix "app." t = true ->
  JSON_parse platform (TextDecoder_decode platform payload) = Returned (JObj members) ->
  lookup_member "type" members = JStr "transcript" ->
  exists entry,
    Store.transcripts (store (snd (handleData platform env payload (Some t) w)))
    = Store.transcripts (store w) ++ [entry]
    /\ TranscriptEntry_typed entry
       = missing_or is_speaker (lookup_member "speaker" members)
         && missing_or is_string (lookup_member "text" members)
         && missing_or is_number (lookup_member "timestamp" members)
         && missing_or is_string (lookup_member "item_id" members).
Proof.
  intros Ht Hp Hty. exists (transcript_of env members).
  rewrite (@handleData_transcript platform env payload (Some t) members w Ht Hp Hty).
  split; [reflexivity|].
  unfold TranscriptEntry_typed, transcript_of. cbn.
  now rewrite !coalesce_typed by reflexivity.
Qed.


End BridgeMore.

(* ================================================================== *)
(** * Further properties of the API client *)

Module ApiMore.
Import Api Statements MoreStatements ApiFacts.

Lemma apiFetch_console platform T (fetch : Request -> FetchOutcome T) path options w :
  exists lines,
    apiFetch platform fetch path options w
    = (settle (fetch (request_of platform path options)),
       logged (request_line :: lines) w)
    /\ match settle (fetch (request_of platform path options)) with
       | Threw _ => exists front, lines = front ++ [failed_line]
       | Returned _ => ~ In failed_line lines
       end.
Proof.
  unfold apiFetch, bind, try_catch, await_fetch, log, throw, ret, lift, settle,
    logged.
  destruct (fetch (request_of platform path options)) as [e|r]; cbn.
  - exists [failed_line]. rewrite <- app_assoc. split; [reflexivity|].
    now exists [].
  - destruct (ok r); cbn.
    + destruct (json_body r); cbn.
      * exists [mkLogLine Info "[api] response"]. rewrite <- app_assoc.
        split; [reflexivity|]. intros [H|[]]. discriminate.
      * exists [mkLogLine Info "[api] response"; failed_line].
        rewrite <- !app_assoc. split; [reflexivity|].
        now exists [mkLogLine Info "[api] response"].
    + exists [mkLogLine Info "[api] response"; failed_line].
      rewrite <- !app_assoc. split; [reflexivity|].
      now exists [mkLogLine Info "[api] response"].
Qed.

(** X12. What [apiFetch] does with each way the request can end: a
    rejected [fetch] is re-thrown as the same value; a response with a
    status in 200..299 gives the body [response.json()] yields, or
    re-throws what [response.json()] throws; a response with any other
    status throws the status error without reading the body. *)
Theorem apiFetch_outcomes
  platform T (fetch : Request -> FetchOutcome T) (path : string)
  (options : FetchOptions) (w : World) :
  (forall e, fetch (request_of platform path options) = Rejected e ->
     fst (apiFetch platform fetch path options w) = Threw e)
  /\ (forall r, fetch (request_of platform path options) = Resolved r ->
      (200 <= status r <= 299)%N ->
      fst (apiFetch platform fetch path options w) = json_body r)
  /\ (forall r, fetch (request_of platform path options) = Resolved r ->
      ~ (200 <= status r <= 299)%N ->
      fst (apiFetch platform fetch path options w)
      = Threw (ErrorObject "Error" ("API error " ++ decimal (status r)))).
Proof.
  destruct (apiFetch_settles platform fetch path options w) as [lines ->].
  cbn [fst]. split; [|split].
  - now intros e ->.
  - intros r -> [H1 H2]. cbn. unfold ok.
    apply N.leb_le in H1, H2. now rewrite H1, H2.
  - intros r -> H. cbn.
    assert (Hok : ok r = false).
    { unfold ok. apply andb_false_iff.
      destruct (N.leb_spec 200 (status r)); [right | now left].
      apply N.leb_gt. lia. }
    now rewrite Hok.
Qed.

(** X13. [apiFetch] touches nothing but the console: the store and the
    [App] state cells are as before.  Its first line is the request line;
    when it throws, its last line is the ["[api] request failed"] error,
    and when it returns it has logged no such error: every failure is
    logged once at the end and none is swallowed. *)
Theorem apiFetch_logs_every_failure
  platform T (fetch : Request -> FetchOutcome T) (path : string)
  (options : FetchOptions) (w : World) :
  let result := apiFetch platform fetch path options w in
  store (snd result) = store w
  /\ error (snd result) = error w
  /\ summaryLoading (snd result) = summaryLoading w
  /\ exists lines,
       console (snd result) = console w ++ request_line :: lines
       /\ (forall e, fst result = Threw e ->
           exists front, lines = front ++ [failed_line])
       /\ (forall a, fst result = Returned a -> ~ In failed_line lines).
Proof.
  intros result. subst result.
  destruct (apiFetch_console platform fetch path options w) as (lines & -> & H).
  cbn [fst snd]. repeat split. exists lines. split; [reflexivity|].
  destruct (settle _); split; intros; try discriminate; exact H.
Qed.

End ApiMore.

(* ================================================================== *)
(** * Further properties of the App component *)

Module AppMore.
Import Api App Components Statements MoreStatements ApiFacts AppFacts.

Lemma setSummary_with_summary r (s : Store.AppState) :
  Store.setSummary r s = with_summary r s.
Proof. reflexivity. Qed.

(** X14. [loadLatestSummary] never throws and never touches the error
    message.  With an empty phone it does nothing.  Otherwise it ends
    with [summaryLoading] false; when the request fails the store is left
    as it was, the summary shown before included; when it succeeds only
    the summary changes, to the first record or to null when there is
    none. *)
Theorem loadLatestSummary_outcomes platform network (phone : string) (w : World) :
  let w' := snd (loadLatestSummary platform network phone w) in
  fst (loadLatestSummary platform network phone w) = Returned tt
  /\ error w' = error w
  /\ (truthy phone = false -> w' = w)
  /\ (truthy phone = true ->
      summaryLoading w' = false
      /\ (forall e, summaries_outcome platform network phone = Threw e ->
          store w' = store w)
      /\ (forall records,
          summaries_outcome platform network phone = Returned records ->
          store w' = with_summary
                       match records with
                       | Some (first :: _) => Some first
                       | _ => None
                       end (store w))).
Proof.
  intros w'. subst w'. destruct (truthy phone) eqn:Hp.
  - destruct (@loadLatestSummary_runs platform network phone w Hp) as [lines ->].
    cbn [fst snd store error summaryLoading].
    repeat split; try discriminate.
    + now intros e ->.
    + now intros records ->.
  - unfold loadLatestSummary. rewrite Hp. cbn.
    repeat split; discriminate.
Qed.

(** X15. [handleRefreshSummary] does nothing at all when the store has
    no caller phone, or an empty one. *)
Theorem handleRefreshSummary_needs_phone platform network (w : World) :
  (forall p, Store.callerPhone (store w) = Some p -> p = EmptyString) ->
  handleRefreshSummary platform network w = (Returned tt, w).
Proof.
  intros H. unfold handleRefreshSummary.
  destruct (Store.callerPhone (store w)) as [[|c rest]|]; try reflexivity.
  discriminate (H _ eq_refl).
Qed.


(** X16. The configuration load on mount never throws and can change
    only [livekitUrl]: it sets it when the request returns a
    configuration whose URL is not empty, and leaves the whole store as
    it was when the request fails or the URL is missing or empty. *)
Theorem loadConfig_outcomes platform network (w : World) :
  let w' := snd (loadConfig platform network w) in
  fst (loadConfig platform network w) = Returned tt
  /\ error w' = error w
  /\ summaryLoading w' = summaryLoading w
  /\ (forall c, config_outcome platform network = Returned (Some c) ->
      truthy (c_livekit_url c) = true ->
      store w' = Store.setLivekitUrl (c_livekit_url c) (store w))
  /\ (forall c, config_outcome platform network = Returned (Some c) ->
      truthy (c_livekit_url c) = false -> store w' = store w)
  /\ (config_outcome platform network = Returned None -> store w' = store w)
  /\ (forall e, config_outcome platform network = Threw e -> store w' = store w).
Proof.
  intros w'. subst w'. unfold loadConfig, fetchConfig, config_outcome, try_catch, bind.
  destruct (apiFetch_settles platform (fetch_config network) "/api/config"
              no_options w) as [lines ->].
  destruct (settle _) as [[c|]|e].
  - destruct (truthy (c_livekit_url c)) eqn:Hu; cbn.
    + repeat split; try discriminate.
      * intros c' [= <-] _. reflexivity.
      * intros c' [= <-] H. congruence.
    + repeat split; try discriminate.
      intros c' [= <-] H. congruence.
  - cbn. repeat split; discriminate.
  - cbn. repeat split; discriminate.
Qed.

(** X17. After [handleDisconnect], whatever the state was, the page is
    not connected, the bridge is not mounted, the session form is enabled
    again with its initial label and status, and the store is the one
    [clearSession] gives; a displayed error message is not cleared. *)
Theorem handleDisconnect_view (w : World) :
  let w' := snd (handleDisconnect w) in
  fst (handleDisconnect w) = Returned tt
  /\ store w' = Store.clearSession (store w)
  /\ error w' = error w
  /\ connected (store w') = false
  /\ bridge_mounted (store w') = false
  /\ form_disabled_in (store w') = false
  /\ status_in (store w') = "Fill the form to start a call"
  /\ submit_label_in (store w') = "Connect & Join".
Proof. repeat split. Qed.

(** X18. When the form is valid and the session request fails,
    [handleConnect] leaves the page not connecting and not connected, so
    the form is enabled again with its initial label and status, and the
    bridge is not mounted. *)
Theorem connect_failure_reenables_form
  platform network (form : Form) (e : Thrown) (w : World) :
  truthy (String_trim platform (displayName form)) = true ->
  truthy (String_trim platform (phoneNumber form)) = true ->
  session_outcome platform network form = Threw e ->
  let s' := store (snd (handleConnect platform network form w)) in
  Store.connecting s' = false
  /\ connected s' = false
  /\ bridge_mounted s' = false
  /\ form_disabled_in s' = false
  /\ status_in s' = "Fill the form to start a call"
  /\ submit_label_in s' = "Connect & Join".
Proof.
  intros Hd Hp He s'. subst s'.
  destruct (@handleConnect_valid platform network form w Hd Hp) as [lines ->].
  rewrite He. repeat split.
Qed.

(** X19. When the form is valid and the session request succeeds,
    [handleConnect] leaves [connecting] false, both logs empty and the
    trimmed phone as caller phone, whatever the summary request does.  The
    page is connected, and the bridge mounted, exactly when the issued
    token and URL are both non-empty; then the form is disabled and shows
    ["Connected"].  With an empty token or URL the page is neither
    connected nor shown an error. *)
Theorem connect_success_view
  platform network (form : Form) (session : SessionResponse) (w : World) :
  truthy (String_trim platform (displayName form)) = true ->
  truthy (String_trim platform (phoneNumber form)) = true ->
  session_outcome platform network form = Returned session ->
  let w' := snd (handleConnect platform network form w) in
  let live := truthy (r_token session) && truthy (r_livekit_url session) in
  Store.connecting (store w') = false
  /\ Store.transcripts (store w') = []
  /\ Store.toolEvents (store w') = []
  /\ Store.callerPhone (store w') = Some (String_trim platform (phoneNumber form))
  /\ error w' = None
  /\ connected (store w') = live
  /\ bridge_mounted (store w') = live
  /\ form_disabled_in (store w') = live
  /\ (live = true ->
      status_in (store w') = "Agent is live in the room"
      /\ submit_label_in (store w') = "Connected").
Proof.
  intros Hd Hp Hs w' live. subst w' live.
  destruct (@handleConnect_valid platform network form w Hd Hp) as [lines ->].
  rewrite Hs. cbn [snd store error].
  assert (Hc : forall s0 : Store.AppState,
             Store.token s0 = Some (r_token session) ->
             Store.livekitUrl s0 = Some (r_livekit_url session) ->
             Store.connecting s0 = false ->
             connected s0 = truthy (r_token session) && truthy (r_livekit_url session)
             /\ bridge_mounted s0 = truthy (r_token session) && truthy (r_livekit_url session)
             /\ form_disabled_in s0 = truthy (r_token session) && truthy (r_livekit_url session)
             /\ (truthy (r_token session) && truthy (r_livekit_url session) = true ->
                 status_in s0 = "Agent is live in the room"
                 /\ submit_label_in s0 = "Connected")).
  { intros s0 Ht Hu Hcg.
    unfold bridge_mounted, form_disabled_in, status_in, submit_label_in, connected.
    rewrite Ht, Hu, Hcg. cbn.
    destruct (truthy (r_token session)), (truthy (r_livekit_url session));
      cbn; repeat split; discriminate. }
  destruct (summaries_outcome platform network
              (String_trim platform (phoneNumber form)));
    (split; [reflexivity|]); (split; [reflexivity|]); (split; [reflexivity|]);
    (split; [reflexivity|]); (split; [reflexivity|]);
    apply Hc; reflexivity.
Qed.

End AppMore.

(* ================================================================== *)
(** * Properties of the panels *)

Module ComponentsMore.
Import Bridge App Components Statements MoreStatements BridgeFacts.

(** X20. The session form, its button and the status pill agree: the
    form is enabled exactly when the status reads ["Fill the form to start
    a call"], which is exactly when the button reads ["Connect & Join"];
    and whenever the End Session button is shown the form is disabled. *)
Theorem form_and_status_agree (connecting connected : bool) :
  (form_disabled connecting connected = false
   <-> statusCopy connecting connected = "Fill the form to start a call")
  /\ (form_disabled connecting connected = false
      <-> submit_label connecting connected = "Connect & Join")
  /\ (end_session_shown connected = true ->
      form_disabled connecting connected = true).
Proof.
  destruct connecting, connected; cbn; repeat split; intros; try reflexivity;
    discriminate.
Qed.

Lemma headings_return_iff
  (toUpperCase : string -> string) (entries : list TranscriptEntry) :
  (exists hs, speaker_headings toUpperCase entries = Returned hs)
  <-> forallb (fun e => is_string (speaker e)) entries = true.
Proof.
  induction entries as [|entry rest IH]; cbn.
  - split; [reflexivity | intros _; now exists []].
  - unfold speaker_heading.
    destruct (speaker entry) eqn:Hs; cbn;
      try (split; [intros [hs H]; discriminate | discriminate]).
    rewrite <- IH. split.
    + intros [hs H].
      destruct (speaker_headings toUpperCase rest) as [hs'|e]; [|discriminate].
      now exists hs'.
    + intros [hs' ->]. now eexists.
Qed.

(** X21. The transcript panel renders its headings exactly when the
    speaker of every entry is a string; one entry with any other speaker
    makes the rendering throw. *)
Theorem headings_render_iff_strings
  (toUpperCase : string -> string) (entries : list TranscriptEntry) :
  (exists hs, speaker_headings toUpperCase entries = Returned hs)
  <-> forallb (fun e => is_string (speaker e)) entries = true.
Proof. apply headings_return_iff. Qed.

Lemma headings_throw_after (toUpperCase : string -> string)
  (entries : list TranscriptEntry) (entry : TranscriptEntry) :
  is_string (speaker entry) = false ->
  exists e, speaker_headings toUpperCase (entries ++ [entry]) = Threw e.
Proof.
  intros Hs.
  destruct (speaker_headings toUpperCase (entries ++ [entry])) as [hs|e] eqn:H.
  - assert (Hall : forallb (fun e => is_string (speaker e)) (entries ++ [entry]) = true)
      by (apply (proj1 (headings_return_iff toUpperCase _)); now exists hs).
    rewrite forallb_app in Hall. cbn in Hall. rewrite Hs in Hall.
    now rewrite andb_false_r in Hall.
  - now exists e.
Qed.

(** X22. A [transcript] message on an ["app."] topic whose [speaker] is
    present, not null and not a string is stored by the bridge, and from
    then on the transcript panel throws when it renders the log. *)
Theorem non_string_speaker_breaks_panel
  platform (toUpperCase : string -> string) env (payload : list byte) (t : string)
  (members : list (string * JSValue)) (w : World) :
  String.prefix "app." t = true ->
  JSON_parse platform (TextDecoder_decode platform payload) = Returned (JObj members) ->
  lookup_member "type" members = JStr "transcript" ->
  nullish (lookup_member "speaker" members) = false ->
  is_string (lookup_member "speaker" members) = false ->
  exists e,
    speaker_headings toUpperCase
      (Store.transcripts (store (snd (handleData platform env payload (Some t) w))))
    = Threw e.
Proof.
  intros Ht Hp Hty Hn Hs.
  rewrite (@handleData_transcript platform env payload (Some t) members w Ht Hp Hty).
  cbn. apply headings_throw_after. cbn. unfold coalesce. now rewrite Hn.
Qed.

(** X23. Entries appended for transcription segments never break the
    panel: if the log rendered before a segment was handled, it renders
    afterwards. *)
Theorem segments_keep_panel_rendering
  (toUpperCase : string -> string) room env
  (segment : option TranscriptionSegment) (w : World) :
  (exists hs, speaker_headings toUpperCase (Store.transcripts (store w)) = Returned hs) ->
  exists hs,
    speaker_headings toUpperCase
      (Store.transcripts (store (snd (handleTranscription room env segment w))))
    = Returned hs.
Proof.
  intros H. apply (proj1 (headings_return_iff toUpperCase _)) in H.
  apply (proj2 (headings_return_iff toUpperCase _)).
  unfold handleTranscription.
  destruct segment as [seg|]; [|exact H].
  destruct (segment_text (Some seg)) as [t|]; [|exact H].
  cbn. rewrite forallb_app, H. cbn.
  now destruct (from_local room seg).
Qed.

(** *** Summary bullets *)

Lemma bullets_of_cons platform piece pieces :
  bullets_of platform (piece :: pieces)
  = bullets_of platform [piece] ++ bullets_of platform pieces.
Proof.
  unfold bullets_of. cbn. now destruct (truthy (String_trim platform piece)).
Qed.

Lemma bullets_of_run_start platform (s : string) :
  String_trim platform EmptyString = EmptyString ->
  bullets_of platform (split_runs s EmptyString true)
  = bullets_of platform (split_runs s EmptyString false).
Proof.
  intros H0. destruct s as [|c rest]; [reflexivity|]. cbn [split_runs].
  destruct (Ascii.eqb c line_feed); [|reflexivity].
  rewrite (bullets_of_cons platform EmptyString).
  unfold bullets_of at 2. cbn [map filter]. now rewrite H0.
Qed.

Lemma split_runs_join platform (a b : string) :
  String_trim platform EmptyString = EmptyString ->
  forall piece in_run,
    (in_run = true -> piece = EmptyString) ->
    bullets_of platform
      (split_runs (a ++ String line_feed b) piece in_run)
    = bullets_of platform (split_runs a piece in_run)
      ++ bullets_of platform (split_lines b).
Proof.
  intros H0. induction a as [|c a IH]; intros piece in_run Hinv.
  - cbn [append split_runs]. rewrite Ascii.eqb_refl.
    destruct in_run.
    + rewrite (Hinv eq_refl). unfold bullets_of at 2. cbn [map filter].
      rewrite H0. cbn [truthy app]. now apply bullets_of_run_start.
    + rewrite bullets_of_cons. f_equal. now apply bullets_of_run_start.
  - cbn [append split_runs]. destruct (Ascii.eqb c line_feed).
    + destruct in_run.
      * now apply IH.
      * rewrite (bullets_of_cons platform piece
                   (split_runs (a ++ String line_feed b) EmptyString true)),
                (bullets_of_cons platform piece (split_runs a EmptyString true)),
                <- app_assoc.
        f_equal. now apply IH.
    + apply IH. discriminate.
Qed.

(** X24. Summary bullets are taken line by line: provided trimming the
    empty string gives the empty string, the bullets of two texts joined
    by a line feed are the bullets of the first followed by the bullets of
    the second; and no bullet is ever empty. *)
Theorem normalizeBullets_by_lines platform (a b : string) :
  String_trim platform EmptyString = EmptyString ->
  normalizeBullets platform (a ++ String line_feed b)
  = normalizeBullets platform a ++ normalizeBullets platform b
  /\ Forall (fun bullet => bullet <> EmptyString) (normalizeBullets platform a).
Proof.
  intros H0. split.
  - unfold normalizeBullets, split_lines.
    apply (split_runs_join platform a b H0). discriminate.
  - apply Forall_forall. intros x Hx.
    apply filter_In in Hx as [_ Hx]. now destruct x.
Qed.

End ComponentsMore.

(* ================================================================== *)
(** * The further theorems at concrete inputs *)

Module MoreScenarios.
Import Bridge Api App Components Statements MoreStatements Samples MoreSamples.
Import BridgeFacts ApiFacts AppFacts StoreMore BridgeMore ApiMore AppMore ComponentsMore.


Lemma logs_grow_without_reset_witness :
  Store.transcripts (Store.run quiet_actions (store busy_world))
  = Store.transcripts (store busy_world) ++ [entry0; entry0]
  /\ Store.toolEvents (Store.run quiet_actions (store busy_world)) = [event0].
Proof.
  destruct (logs_grow_without_reset quiet_actions (store busy_world) eq_refl)
    as (Ht & Hl & _).
  split; [exact Ht | exact Hl].
Defined.

Lemma handleData_drops_unknown_silently_witness :
  handleData Reference.platform env0 ping_message (Some "app.x") busy_world
  = (Returned tt, logged [debug_line] busy_world)
  /\ handleData Reference.platform env0 array_message (Some "app.x") busy_world
     = (Returned tt, logged [debug_line] busy_world).
Proof.
  split.
  - assert (Hp : JSON_parse Reference.platform
                   (TextDecoder_decode Reference.platform ping_message)
                 = Returned (JObj [("type", JStr "ping"); ("n", JNum 1)]))
      by (vm_compute; reflexivity).
    apply (@handleData_drops_unknown_silently Reference.platform env0 ping_message
             "app.x" _ busy_world eq_refl Hp); try discriminate.
    intros members [= <-]. split; discriminate.
  - assert (Hp : JSON_parse Reference.platform
                   (TextDecoder_decode Reference.platform array_message)
                 = Returned (JArr [JNum 1; JNum 2; JNum 3]))
      by (vm_compute; reflexivity).
    apply (@handleData_drops_unknown_silently Reference.platform env0 array_message
             "app.x" _ busy_world eq_refl Hp); discriminate.
Defined.

Lemma handleData_null_is_reported_witness :
  handleData Reference.platform env0 null_message (Some "app.x") busy_world
  = (Returned tt, logged [debug_line; warn_line] busy_world).
Proof.
  apply handleData_null_is_reported; [reflexivity | vm_compute; reflexivity].
Defined.

Lemma tool_message_event_witness :
  exists event,
    Store.toolEvents
      (store (snd (handleData Reference.platform env0 nameless_tool_message
                     (Some "app.timeline") busy_world)))
    = [event]
    /\ Types.name event = JUndefined
    /\ arguments event = JObj []
    /\ output event = JArr [JNum 1].
Proof.
  assert (Hp : JSON_parse Reference.platform
                 (TextDecoder_decode Reference.platform nameless_tool_message)
               = Returned (JObj [("type", JStr "tool"); ("arguments", JNull);
                                 ("output", JArr [JNum 1])]))
    by (vm_compute; reflexivity).
  destruct (@tool_message_event Reference.platform env0 nameless_tool_message
              "app.timeline" _ busy_world eq_refl Hp eq_refl)
    as (event & _ & Hlog & _ & Hname & Hargs & Hout & _).
  exists event. split; [exact Hlog|]. split; [exact Hname|].
  split; [exact Hargs | exact Hout].
Defined.

Lemma segment_entry_classified_witness :
  (exists entry,
     fst (handleTranscription room0 env0 (Some local_segment) busy_world) = Returned tt
     /\ speaker entry = JStr "user"
     /\ TranscriptEntry_typed entry = true)
  /\ (exists entry,
        snd (handleTranscription room0 env0 (Some agent_segment) busy_world)
        = with_store (Store.addTranscript entry (store busy_world))
                     (logged [transcription_line] busy_world)
        /\ speaker entry = JStr "assistant"
        /\ itemId entry = JStr "seg-1").
Proof.
  split.
  - destruct (@segment_entry_classified room0 env0 local_segment _ _ busy_world eq_refl)
      as (entry & Hrun & Huser & _ & _ & _ & _ & Htyped).
    exists entry. split; [now rewrite Hrun|]. split; [|exact Htyped].
    apply Huser. eexists. split; reflexivity.
  - destruct (@segment_entry_classified room0 env0 agent_segment _ _ busy_world eq_refl)
      as (entry & Hrun & Huser & Hagent & _ & _ & Hid & _).
    exists entry. split; [now rewrite Hrun|]. split; [|now apply Hid].
    apply Hagent. intros H. apply Huser in H as (p & [= <-] & Hp). discriminate Hp.
Defined.

Lemma transcript_entry_typed_iff_witness :
  (exists entry,
     Store.transcripts
       (store (snd (handleData Reference.platform env0 numbered_speaker_message
                      (Some "app.transcript") initial_world)))
     = [entry]
     /\ TranscriptEntry_typed entry = false)
  /\ (exists entry,
        Store.transcripts
          (store (snd (handleData Reference.platform env0 empty_transcript_message
                         (Some "app.transcript") initial_world)))
        = [entry]
        /\ TranscriptEntry_typed entry = true).
Proof.
  split.
  - assert (Hp : JSON_parse Reference.platform
                   (TextDecoder_decode Reference.platform numbered_speaker_message)
                 = Returned (JObj [("type", JStr "transcript");
                                   ("speaker", JNum 42); ("text", JStr "hi")]))
      by (vm_compute; reflexivity).
    destruct (@transcript_entry_typed_iff Reference.platform env0
                numbered_speaker_message "app.transcript" _ initial_world
                eq_refl Hp eq_refl) as (entry & Hlog & Htyped).
    exists entry. split; [exact Hlog | exact Htyped].
  - assert (Hp : JSON_parse Reference.platform
                   (TextDecoder_decode Reference.platform empty_transcript_message)
                 = Returned (JObj [("type", JStr "transcript");
                                   ("text", JStr EmptyString)]))
      by (vm_compute; reflexivity).
    destruct (@transcript_entry_typed_iff Reference.platform env0
                empty_transcript_message "app.transcript" _ initial_world
                eq_refl Hp eq_refl) as (entry & Hlog & Htyped).
    exists entry. split; [exact Hlog | exact Htyped].
Defined.


Lemma apiFetch_outcomes_witness :
  fst (requestSession Reference.platform down_network payload0 initial_world)
  = Threw unreachable
  /\ fst (requestSession Reference.platform odd_network payload0 initial_world)
     = Returned session_without_token
  /\ fst (fetchSummaries Reference.platform odd_network (Some "+15555550123") 1
            initial_world)
     = Threw Reference.syntax_error
  /\ fst (fetchConfig Reference.platform odd_network initial_world)
     = Threw (ErrorObject "Error" "API error 404").
Proof.
  split; [|split; [|split]].
  - destruct (apiFetch_outcomes Reference.platform (fetch_session down_network)
                "/api/session" (session_options payload0) initial_world)
      as (H & _ & _).
    exact (H unreachable eq_refl).
  - destruct (apiFetch_outcomes Reference.platform (fetch_session odd_network)
                "/api/session" (session_options payload0) initial_world)
      as (_ & H & _).
    assert (Hs : (200 <= 201 <= 299)%N) by lia.
    exact (H _ eq_refl Hs).
  - destruct (apiFetch_outcomes Reference.platform (fetch_summaries odd_network)
                (summaries_path Reference.platform (Some "+15555550123") 1)
                no_options initial_world)
      as (_ & H & _).
    assert (Hs : (200 <= 200 <= 299)%N) by lia.
    exact (H _ eq_refl Hs).
  - destruct (apiFetch_outcomes Reference.platform (fetch_config odd_network)
                "/api/config" no_options initial_world)
      as (_ & _ & H).
    assert (Hs : ~ (200 <= 404 <= 299)%N) by lia.
    exact (H _ eq_refl Hs).
Defined.

Lemma apiFetch_logs_every_failure_witness :
  (exists front,
     console (snd (fetchConfig Reference.platform odd_network initial_world))
     = request_line :: front ++ [failed_line])
  /\ ~ In failed_line
         (console (snd (fetchConfig Reference.platform full_network initial_world))).
Proof.
  split.
  - destruct (apiFetch_logs_every_failure Reference.platform
                (fetch_config odd_network) "/api/config" no_options initial_world)
      as (_ & _ & _ & lines & Hc & Hthrow & _).
    destruct (Hthrow (ErrorObject "Error" "API error 404") eq_refl) as [front ->].
    exists front. exact Hc.
  - destruct (apiFetch_logs_every_failure Reference.platform
                (fetch_config full_network) "/api/config" no_options initial_world)
      as (_ & _ & _ & lines & Hc & _ & Hret).
    unfold fetchConfig. rewrite Hc. cbn [console initial_world app].
    intros [H|H]; [discriminate H|].
    exact (Hret _ eq_refl H).
Defined.

Lemma loadLatestSummary_outcomes_witness :
  Store.summary
    (store (snd (loadLatestSummary Reference.platform full_network "+15555550123"
                   busy_world)))
  = Some record1
  /\ store (snd (loadLatestSummary Reference.platform down_network "+15555550123"
                   busy_world))
     = store busy_world
  /\ snd (loadLatestSummary Reference.platform full_network EmptyString busy_world)
     = busy_world.
Proof.
  split; [|split].
  - destruct (loadLatestSummary_outcomes Reference.platform full_network
                "+15555550123" busy_world) as (_ & _ & _ & H).
    destruct (H eq_refl) as (_ & _ & Hok).
    now rewrite (Hok (Some [record1; record2]) eq_refl).
  - destruct (loadLatestSummary_outcomes Reference.platform down_network
                "+15555550123" busy_world) as (_ & _ & _ & H).
    destruct (H eq_refl) as (_ & Hfail & _).
    exact (Hfail unreachable eq_refl).
  - destruct (loadLatestSummary_outcomes Reference.platform full_network
                EmptyString busy_world) as (_ & _ & H & _).
    exact (H eq_refl).
Defined.

Lemma handleRefreshSummary_needs_phone_witness :
  handleRefreshSummary Reference.platform full_network initial_world
  = (Returned tt, initial_world).
Proof.
  apply handleRefreshSummary_needs_phone. intros p H. discriminate H.
Defined.

Lemma loadConfig_outcomes_witness :
  store (snd (loadConfig Reference.platform full_network initial_world))
  = Store.setLivekitUrl "wss://cfg" Store.initial
  /\ store (snd (loadConfig Reference.platform odd_network busy_world))
     = store busy_world
  /\ fst (loadConfig Reference.platform down_network busy_world) = Returned tt.
Proof.
  split; [|split].
  - destruct (loadConfig_outcomes Reference.platform full_network initial_world)
      as (_ & _ & _ & H & _).
    exact (H {| c_livekit_url := "wss://cfg"; default_timezone := "UTC" |}
             eq_refl eq_refl).
  - destruct (loadConfig_outcomes Reference.platform odd_network busy_world)
      as (_ & _ & _ & _ & _ & _ & H).
    exact (H (ErrorObject "Error" "API error 404") eq_refl).
  - destruct (loadConfig_outcomes Reference.platform down_network busy_world)
      as (H & _).
    exact H.
Defined.

Lemma connect_failure_reenables_form_witness :
  let s' := store (snd (handleConnect Reference.platform down_network valid_form
                          busy_world)) in
  Store.connecting s' = false
  /\ form_disabled_in s' = false
  /\ status_in s' = "Fill the form to start a call".
Proof.
  destruct (@connect_failure_reenables_form Reference.platform down_network
              valid_form unreachable busy_world eq_refl eq_refl eq_refl)
    as (Hc & _ & _ & Hf & Hs & _).
  split; [exact Hc|]. split; [exact Hf | exact Hs].
Defined.

Lemma connect_success_view_witness :
  (let w' := snd (handleConnect Reference.platform full_network valid_form
                    busy_world) in
   connected (store w') = true
   /\ Store.transcripts (store w') = []
   /\ Store.callerPhone (store w') = Some "+15555550123"
   /\ submit_label_in (store w') = "Connected")
  /\ (let w' := snd (handleConnect Reference.platform odd_network valid_form
                       initial_world) in
      connected (store w') = false /\ error w' = None).
Proof.
  split.
  - destruct (@connect_success_view Reference.platform full_network valid_form
                _ busy_world eq_refl eq_refl eq_refl)
      as (_ & Ht & _ & Hp & _ & Hc & _ & _ & Hlive).
    split; [exact Hc|]. split; [exact Ht|]. split; [exact Hp|].
    exact (proj2 (Hlive eq_refl)).
  - destruct (@connect_success_view Reference.platform odd_network valid_form
                _ initial_world eq_refl eq_refl eq_refl)
      as (_ & _ & _ & _ & He & Hc & _).
    split; [exact Hc | exact He].
Defined.

Lemma form_and_status_agree_witness :
  form_disabled true false = true
  /\ form_disabled false false = false
  /\ form_disabled false true = true.
Proof.
  split; [|split].
  - destruct (proj1 (form_and_status_agree true false)) as [H _].
    destruct (form_disabled true false) eqn:E; [reflexivity|].
    discriminate (H eq_refl).
  - apply (proj1 (form_and_status_agree false false)). reflexivity.
  - apply (proj2 (proj2 (form_and_status_agree false true))). reflexivity.
Defined.

Lemma headings_render_iff_strings_witness :
  exists hs,
    speaker_headings upper (Store.transcripts (store busy_world) ++ [entry0])
    = Returned hs.
Proof.
  apply (proj2 (headings_render_iff_strings upper _)). reflexivity.
Defined.

Lemma non_string_speaker_breaks_panel_witness :
  exists e,
    speaker_headings upper
      (Store.transcripts
         (store (snd (handleData Reference.platform env0 numbered_speaker_message
                        (Some "app.transcript") busy_world))))
    = Threw e.
Proof.
  assert (Hp : JSON_parse Reference.platform
                 (TextDecoder_decode Reference.platform numbered_speaker_message)
               = Returned (JObj [("type", JStr "transcript");
                                 ("speaker", JNum 42); ("text", JStr "hi")]))
    by (vm_compute; reflexivity).
  exact (@non_string_speaker_breaks_panel Reference.platform upper env0
           numbered_speaker_message "app.transcript" _ busy_world
           eq_refl Hp eq_refl eq_refl eq_refl).
Defined.

Lemma segments_keep_panel_rendering_witness :
  exists hs,
    speaker_headings upper
      (Store.transcripts
         (store (snd (handleTranscription room0 env0 (Some agent_segment)
                        busy_world))))
    = Returned hs.
Proof.
  apply segments_keep_panel_rendering. exists ["USER"]. reflexivity.
Defined.

Lemma normalizeBullets_by_lines_witness :
  normalizeBullets Reference.platform
    ("- booked 10:00  " ++ String line_feed (String line_feed "  - call back"))
  = ["- booked 10:00"; "- call back"].
Proof.
  destruct (@normalizeBullets_by_lines Reference.platform "- booked 10:00  "
              (String line_feed "  - call back") eq_refl) as [H _].
  rewrite H. reflexivity.
Defined.

End MoreScenarios.

(* ================================================================== *)
(** * Properties of the page as a whole *)

Module PageMore.
Import Bridge Api App Statements MoreStatements ApiFacts AppFacts BridgeMore AppMore.

Lemma settled_with_summary r (s : Store.AppState) :
  settled (with_summary r s) = settled s.
Proof. reflexivity. Qed.





End PageMore.
